(** * Verification of the OpenReview Markdown formatter

    A shallow embedding of [src/extract_openreview_comments/formatter.py]
    (class [MarkdownFormatter]) and the properties of its renderings.

    Conventions of the embedding:
    - a Python [str] is a Rocq [string] holding its UTF-8 bytes;
    - a Python exception is a [Raise] result, a normal return an [Ok];
    - the interpreter's library functions the formatter calls
      ([html.unescape], [datetime.fromtimestamp], [strftime], [str.title],
      [str.split], [str.join], [sorted]) are embedded next to it; what they
      take from tables or from the host (the HTML5 entity table, the local
      time zone, [repr] of a string) is a variable of the section. *)

From Stdlib Require Import ZArith Ascii String DecimalString Lia.
From stdpp Require Import gmap strings list fin_maps sorting.

Set Warnings "-register-all".
Local Open Scope Z_scope.

(** ** Results: a return value or a raised exception *)

Inductive exn :=
| AttributeError   (* [.split] on a value that is not a [str] *)
| ValueError       (* [datetime.fromtimestamp]: year out of range;
                      [int()] and [str()]: more digits than the limit *)
| RecursionError.  (* the recursion budget is used up *)

Inductive res (A : Type) :=
| Ok (a : A)
| Raise (e : exn).
Arguments Ok {A} a.
Arguments Raise {A} e.

Global Instance res_ret : MRet res := λ A a, Ok a.
Global Instance res_bind : MBind res := λ A B k m,
  match m with
  | Ok a => k a
  | Raise e => Raise e
  end.
Global Instance res_fmap : FMap res := λ A B f m,
  match m with
  | Ok a => Ok (f a)
  | Raise e => Raise e
  end.

Definition is_ok {A : Type} (m : res A) : Prop :=
  match m with Ok _ => True | Raise _ => False end.

(** ** Python strings *)

Module PyStr.

Definition LF : ascii := "010"%char.

(** [s * n] *)
Fixpoint repeat (s : string) (n : nat) : string :=
  match n with
  | O => ""
  | S k => s +:+ repeat s k
  end.

(** [sep.join(l)] *)
Fixpoint join (sep : string) (l : list string) : string :=
  match l with
  | [] => ""
  | [x] => x
  | x :: rest => x +:+ sep +:+ join sep rest
  end.

(** [s.split(c)] for a one-character separator: never the empty list. *)
Fixpoint split (c : ascii) (s : string) : list string :=
  match s with
  | EmptyString => [""]
  | String a t =>
      if Ascii.eqb a c then "" :: split c t
      else match split c t with
           | w :: ws => String a w :: ws
           | [] => [String a ""]
           end
  end.

(** [s.replace(a, b)] for one-character [a] and [b]. *)
Fixpoint replace (a b : ascii) (s : string) : string :=
  match s with
  | EmptyString => ""
  | String c t => String (if Ascii.eqb c a then b else c) (replace a b t)
  end.

Definition is_lower (c : ascii) : bool :=
  let n := N_of_ascii c in (97 <=? n)%N && (n <=? 122)%N.
Definition is_upper (c : ascii) : bool :=
  let n := N_of_ascii c in (65 <=? n)%N && (n <=? 90)%N.
Definition upper (c : ascii) : ascii :=
  if is_lower c then ascii_of_N (N_of_ascii c - 32) else c.
Definition lower (c : ascii) : ascii :=
  if is_upper c then ascii_of_N (N_of_ascii c + 32) else c.

(** [s.title()] on ASCII text: a cased character that follows an uncased
    one is upper-cased, every other cased character lower-cased.  The
    formatter applies it to its own field names only. *)
Fixpoint title_go (prev_cased : bool) (s : string) : string :=
  match s with
  | EmptyString => ""
  | String c t =>
      let cased := is_lower c || is_upper c in
      String (if prev_cased then lower c else upper c) (title_go cased t)
  end.
Definition title (s : string) : string := title_go false s.

(** The decimal text of an integer. *)
Definition of_Z (z : Z) : string := NilZero.string_of_int (Z.to_int z).

(** [sys.get_int_max_str_digits()], as the interpreter starts with it:
    [int(s)] of more decimal digits and [str(n)] of an [n] of more
    decimal digits are refused with ValueError. *)
Definition int_max_str_digits : nat := 4300.

(** [str(n)] of an [int] *)
Definition str_int (z : Z) : res string :=
  if Nat.ltb int_max_str_digits (String.length (of_Z (Z.abs z)))
  then Raise ValueError
  else Ok (of_Z z).

(** [needle in s] and [s.find(needle)] *)
Fixpoint startswith (p s : string) : bool :=
  match p, s with
  | EmptyString, _ => true
  | String a p', String b s' => Ascii.eqb a b && startswith p' s'
  | String _ _, EmptyString => false
  end.

Fixpoint find (needle s : string) : option nat :=
  if startswith needle s then Some O
  else match s with
       | EmptyString => None
       | String _ t => S <$> find needle t
       end.

Definition contains (needle s : string) : bool :=
  match find needle s with Some _ => true | None => false end.

(** [c in s] for one character *)
Fixpoint mem (c : ascii) (s : string) : bool :=
  match s with
  | EmptyString => false
  | String a t => Ascii.eqb a c || mem c t
  end.

Definition is_empty (s : string) : bool :=
  match s with EmptyString => true | String _ _ => false end.

(** [str(n).zfill(w)]-style padding used by [strftime] *)
Definition pad (w : nat) (z : Z) : string :=
  let s := of_Z z in repeat "0" (w - String.length s) +:+ s.

End PyStr.

(** ** [html.unescape] (Lib/html/__init__.py) *)

Module Html.

Definition code (c : ascii) : Z := Z.of_N (N_of_ascii c).
Definition chr8 (n : Z) : ascii := ascii_of_N (Z.to_N n).

Definition is_digit (c : ascii) : bool :=
  (48 <=? code c) && (code c <=? 57).
Definition is_hexdigit (c : ascii) : bool :=
  is_digit c || ((97 <=? code c) && (code c <=? 102))
             || ((65 <=? code c) && (code c <=? 70)).
Definition digit_val (c : ascii) : Z :=
  if is_digit c then code c - 48
  else if (97 <=? code c) then code c - 87
  else code c - 55.

(** the class [[^\t\n\f <&#;]] *)
Definition name_char (c : ascii) : bool :=
  negb (bool_decide (code c ∈ [9; 10; 12; 32; 60; 38; 35; 59])).

(** the value of a run of digits in a base *)
Definition int_of (base : Z) (ds : string) : Z :=
  fold_left (λ acc c, acc * base + digit_val c) (list_ascii_of_string ds) 0.

(** [int(ds, 16)] and [int(ds)] of a run of digits: the limit on the
    number of digits is for the bases that are no power of two. *)
Definition int_hex (ds : string) : res Z := Ok (int_of 16 ds).
Definition int_dec (ds : string) : res Z :=
  if Nat.ltb PyStr.int_max_str_digits (String.length ds)
  then Raise ValueError
  else Ok (int_of 10 ds).

(** the longest prefix of at most [n] characters satisfying [p] *)
Fixpoint span_upto (n : nat) (p : ascii → bool) (s : string) : string * string :=
  match n, s with
  | S k, String c t =>
      if p c then let '(a, r) := span_upto k p t in (String c a, r)
      else ("", s)
  | _, _ => ("", s)
  end.
Definition span (p : ascii → bool) (s : string) : string * string :=
  span_upto (String.length s) p s.

(** What group 1 of [_charref] captured. *)
Inductive charref :=
| Dec (digits : string)          (* [#[0-9]+;?] *)
| Hex (digits : string)          (* [#[xX][0-9a-fA-F]+;?] *)
| Named (s : string).            (* [[^\t\n\f <&#;]{1,32};?], with its [;] *)

(** the optional [;] that ends each alternative *)
Definition semicolon (r : string) : string :=
  match r with
  | String ";" _ => ";"
  | _ => ""
  end.

(** [_charref] tried right after an ampersand: the reference and the
    number of characters the match spans after the ampersand. *)
Definition match_charref (s : string) : option (charref * nat) :=
  match s with
  | String "#" t =>
      let '(ds, r) := span is_digit t in
      if negb (PyStr.is_empty ds) then
        Some (Dec ds, S (String.length ds + String.length (semicolon r)))
      else
        match t with
        | String x t' =>
            if bool_decide (x = "x"%char ∨ x = "X"%char) then
              let '(hs, r') := span is_hexdigit t' in
              if negb (PyStr.is_empty hs) then
                Some (Hex hs,
                      S (S (String.length hs + String.length (semicolon r'))))
              else None
            else None
        | EmptyString => None
        end
  | _ =>
      let '(nm, r) := span_upto 32 name_char s in
      if negb (PyStr.is_empty nm) then
        Some (Named (nm +:+ semicolon r),
              Nat.add (String.length nm) (String.length (semicolon r)))
      else None
  end.

(** [chr(n)], as UTF-8 *)
Definition utf8 (n : Z) : string :=
  if n <? 128 then String (chr8 n) ""
  else if n <? 2048 then
    String (chr8 (192 + n / 64)) (String (chr8 (128 + n mod 64)) "")
  else if n <? 65536 then
    String (chr8 (224 + n / 4096))
      (String (chr8 (128 + (n / 64) mod 64))
         (String (chr8 (128 + n mod 64)) ""))
  else
    String (chr8 (240 + n / 262144))
      (String (chr8 (128 + (n / 4096) mod 64))
         (String (chr8 (128 + (n / 64) mod 64))
            (String (chr8 (128 + n mod 64)) ""))).

(** [_invalid_charrefs]: the code point a reference is replaced by *)
Definition invalid_charrefs (n : Z) : option Z :=
  match n with
  | 0 => Some 65533 | 13 => Some 13
  | 128 => Some 8364 | 129 => Some 129 | 130 => Some 8218
  | 131 => Some 402 | 132 => Some 8222 | 133 => Some 8230
  | 134 => Some 8224 | 135 => Some 8225 | 136 => Some 710
  | 137 => Some 8240 | 138 => Some 352 | 139 => Some 8249
  | 140 => Some 338 | 141 => Some 141 | 142 => Some 381
  | 143 => Some 143 | 144 => Some 144 | 145 => Some 8216
  | 146 => Some 8217 | 147 => Some 8220 | 148 => Some 8221
  | 149 => Some 8226 | 150 => Some 8211 | 151 => Some 8212
  | 152 => Some 732 | 153 => Some 8482 | 154 => Some 353
  | 155 => Some 8250 | 156 => Some 339 | 157 => Some 157
  | 158 => Some 382 | 159 => Some 376
  | _ => None
  end.

(** [num in _invalid_codepoints] *)
Definition invalid_codepoint (n : Z) : bool :=
  ((1 <=? n) && (n <=? 8)) || ((14 <=? n) && (n <=? 31))
  || ((127 <=? n) && (n <=? 159)) || ((64976 <=? n) && (n <=? 65007))
  || (n =? 11)
  || ((n <=? 1114111) && (65534 <=? n mod 65536)).

Section Unescape.

(** [html.entities.html5]: name (with its [;] when it has one) to text *)
Variable html5 : string → option string.

(** [for x in range(len(s)-1, 1, -1)]: the longest known proper prefix *)
Fixpoint longest_name (x : nat) (s : string) : string :=
  match x with
  | S (S _ as x') =>
      match html5 (String.substring 0 x s) with
      | Some v => v +:+ String.substring x (String.length s - x) s
      | None => longest_name x' s
      end
  | _ => "&" +:+ s
  end.

(** the text of a numeric reference, once [int] gave its number *)
Definition numeric_text (num : Z) : string :=
  match invalid_charrefs num with
  | Some cp => utf8 cp
  | None =>
      if ((55296 <=? num) && (num <=? 57343)) || (1114111 <? num)
      then utf8 65533
      else if invalid_codepoint num then ""
      else utf8 num
  end.

Definition replace_charref (r : charref) : res string :=
  match r with
  | Dec ds => num ← int_dec ds; mret (numeric_text num)
  | Hex ds => num ← int_hex ds; mret (numeric_text num)
  | Named s =>
      mret (match html5 s with
            | Some v => v
            | None => longest_name (String.length s - 1) s
            end)
  end.

(** [_charref.sub(_replace_charref, s)]: one scan from the left, the
    replacement of a match computed when the scan meets it; [skip]
    counts the characters of a match still to be passed over. *)
Fixpoint charref_sub (skip : nat) (s : string) : res string :=
  match s with
  | EmptyString => mret ""
  | String c t =>
      match skip with
      | S k => charref_sub k t
      | O =>
          if Ascii.eqb c "&" then
            match match_charref t with
            | Some (r, len) =>
                text ← replace_charref r;
                rest ← charref_sub len t;
                mret (text +:+ rest)
            | None => rest ← charref_sub O t; mret (String c rest)
            end
          else rest ← charref_sub O t; mret (String c rest)
      end
  end.

Definition unescape (s : string) : res string :=
  if PyStr.mem "&" s then charref_sub O s else mret s.

End Unescape.

(** The five entities of XML, as [html.entities.html5] has them (which
    also lists four of them without the semicolon). *)
Definition html5_xml (name : string) : option string :=
  if bool_decide (name ∈ ["amp;"; "amp"; "AMP;"; "AMP"]) then Some "&"
  else if bool_decide (name ∈ ["lt;"; "lt"; "LT;"; "LT"]) then Some "<"
  else if bool_decide (name ∈ ["gt;"; "gt"; "GT;"; "GT"]) then Some ">"
  else if bool_decide (name ∈ ["quot;"; "quot"; "QUOT;"; "QUOT"]) then Some (String (chr8 34) "")
  else if bool_decide (name = "apos;") then Some "'"
  else None.

End Html.

(** ** [datetime.fromtimestamp] and [strftime] *)

Module Datetime.

Record datetime := mkDatetime {
  year : Z; month : Z; day : Z; hour : Z; minute : Z; second : Z
}.

(** Days since 1970-01-01 to (year, month, day) of the proleptic
    Gregorian calendar. *)
Definition civil_from_days (days : Z) : Z * Z * Z :=
  let z := days + 719468 in
  let era := z / 146097 in
  let doe := z - era * 146097 in
  let yoe := (doe - doe / 1460 + doe / 36524 - doe / 146096) / 365 in
  let doy := doe - (365 * yoe + yoe / 4 - yoe / 100) in
  let mp := (5 * doy + 2) / 153 in
  let d := doy - (153 * mp + 2) / 5 + 1 in
  let m := if mp <? 10 then mp + 3 else mp - 9 in
  (yoe + era * 400 + (if m <=? 2 then 1 else 0), m, d).

Section Local.

(** The host's time zone: the offset of local time from UTC, in
    seconds, at a given second of the epoch. *)
Variable utcoffset : Z → Z.

Definition local_date (s : Z) : Z * Z * Z :=
  civil_from_days ((s + utcoffset s) / 86400).

Definition year_ok (y : Z) : bool := (1 <=? y) && (y <=? 9999).

(** [datetime.fromtimestamp(ms / 1000)] for an integer [ms].  The
    quotient is a float; for every [ms] whose year is representable its
    whole part is [ms / 1000] rounded down.  CPython converts the
    second and, to detect a repeated hour, the second one day before;
    a year outside 1..9999 in either is an exception (ValueError;
    OverflowError or OSError further out). *)
Definition fromtimestamp (ms : Z) : res datetime :=
  let s := ms / 1000 in
  let '(y, m, d) := local_date s in
  let '(y', _, _) := local_date (s - 86400) in
  let r := (s + utcoffset s) mod 86400 in
  if year_ok y && year_ok y'
  then Ok (mkDatetime y m d (r / 3600) ((r mod 3600) / 60) (r mod 60))
  else Raise ValueError.

End Local.

(** One directive of [strftime] ([%Y] as glibc prints it: no padding). *)
Definition directive (c : ascii) (dt : datetime) : string :=
  if Ascii.eqb c "Y" then PyStr.of_Z (year dt)
  else if Ascii.eqb c "m" then PyStr.pad 2 (month dt)
  else if Ascii.eqb c "d" then PyStr.pad 2 (day dt)
  else if Ascii.eqb c "H" then PyStr.pad 2 (hour dt)
  else if Ascii.eqb c "M" then PyStr.pad 2 (minute dt)
  else if Ascii.eqb c "S" then PyStr.pad 2 (second dt)
  else String "%" (String c "").

(** [dt.strftime(fmt)] for the directives the formatter uses *)
Fixpoint strftime_go (pct : bool) (fmt : string) (dt : datetime) : string :=
  match fmt with
  | EmptyString => if pct then "%" else ""
  | String c t =>
      if pct then directive c dt +:+ strftime_go false t dt
      else if Ascii.eqb c "%" then strftime_go true t dt
      else String c (strftime_go false t dt)
  end.
Definition strftime (dt : datetime) (fmt : string) : string :=
  strftime_go false fmt dt.

(** Coordinated universal time, the zone of the examples below. *)
Definition utc : Z → Z := λ _, 0.

End Datetime.

(** ** Values and notes *)

(** A field value as the API delivers it (decoded JSON).  A float is kept
    as the two things the formatter can observe of it: its [str()] text and
    whether it is non-zero.  A [dict] keeps its insertion order. *)
Inductive PyVal :=
| PNone
| PBool (b : bool)
| PInt (z : Z)
| PFloat (text : string) (nonzero : bool)
| PStr (s : string)
| PList (l : list PyVal)
| PDict (d : list (string * PyVal)).

(** [d.get(k)] / [k in d] / [d[k]] on a [dict] with [str] keys *)
Fixpoint dict_get {V : Type} (d : list (string * V)) (k : string) : option V :=
  match d with
  | [] => None
  | (k', v) :: rest => if String.eqb k' k then Some v else dict_get rest k
  end.

(** The [details] dict of a note: its ["directReplies"] entry and the
    number of its other keys (which the formatter never reads). *)
Record Details (N : Type) := mkDetails {
  directReplies : option (list N);
  other_keys : nat
}.
Arguments mkDetails {N} _ _.
Arguments directReplies {N} _.
Arguments other_keys {N} _.

(** A note: an [openreview.api.Note] or the [dict] form of one.  [None]
    stands for an attribute or key that is missing or holds [None], which
    [_get_attr] with its default does not tell apart. *)
Inductive Note := mkNote {
  note_id : option string;             (* [id] *)
  signatures : option (list string);
  cdate : option Z;
  content : option (list (string * PyVal));
  replyto : option string;
  details : option (Details Note)
}.

(** Truth value testing ([if x:]) *)
Class Truthy (A : Type) := truthy : A → bool.
Global Instance truthy_string : Truthy string := λ s, negb (PyStr.is_empty s).
Global Instance truthy_Z : Truthy Z := λ z, negb (z =? 0).
Global Instance truthy_list {A} : Truthy (list A) := λ l,
  match l with [] => false | _ :: _ => true end.
Global Instance truthy_option {A} `{Truthy A} : Truthy (option A) := λ o,
  match o with Some a => truthy a | None => false end.
Global Instance truthy_details {N} : Truthy (Details N) := λ d,
  match directReplies d with
  | Some _ => true
  | None => negb (Nat.eqb (other_keys d) 0)
  end.
Global Instance truthy_PyVal : Truthy PyVal := λ v,
  match v with
  | PNone => false
  | PBool b => b
  | PInt z => truthy z
  | PFloat _ nz => nz
  | PStr s => truthy s
  | PList l => truthy l
  | PDict d => truthy d
  end.

(** [sorted(l, key=key)] and [l.sort(key=key)]: the stable sort. *)
Section Sorted.
Context {A : Type} (key : A → Z).

Fixpoint insert_by (x : A) (l : list A) : list A :=
  match l with
  | [] => [x]
  | y :: rest =>
      if key x <=? key y then x :: l else y :: insert_by x rest
  end.

Definition sorted (l : list A) : list A := foldr insert_by [] l.
End Sorted.

(** ** The formatter: class [MarkdownFormatter] *)

Section MarkdownFormatter.

(** [html.entities.html5] *)
Variable html5 : string → option string.
(** [repr] of a [str] (its quoting depends on the Unicode tables) *)
Variable repr_str : string → string.
(** the host's time zone *)
Variable utcoffset : Z → Z.

(** [repr(v)] and [str(v)], which an f-string applies to its fields.
    The nesting of lists and dicts is followed to any depth: the
    RecursionError that [repr] raises on a value nested deeper than the
    interpreter's limit is left out. *)
Fixpoint py_repr (v : PyVal) : res string :=
  match v with
  | PNone => mret "None"
  | PBool b => mret (if b then "True" else "False")
  | PInt z => PyStr.str_int z
  | PFloat text _ => mret text
  | PStr s => mret (repr_str s)
  | PList l =>
      items ← mapM py_repr l;
      mret ("[" +:+ PyStr.join ", " items +:+ "]")
  | PDict d =>
      items ← mapM (λ kv, text ← py_repr (snd kv);
                          mret (repr_str (fst kv) +:+ ": " +:+ text)) d;
      mret ("{" +:+ PyStr.join ", " items +:+ "}")
  end.

Definition py_str (v : PyVal) : res string :=
  match v with
  | PStr s => mret s
  | _ => py_repr v
  end.

(** [_get_attr(note, attr)] with its default [None]: one accessor for
    both shapes of a note. *)
Definition _get_attr {A : Type} (note : Note) (attr : Note → option A)
  : option A := attr note.

(** [_extract_value], lines 107-129 *)
Definition _extract_value (field : PyVal) : res PyVal :=
  value ←
    match field with
    | PDict d => mret (default PNone (dict_get d "value"))
    | PStr s => mret (PStr s)
    | PBool _ | PInt _ | PFloat _ _ => text ← py_str field; mret (PStr text)
    | _ => mret PNone
    end;
  match value with
  | PStr s =>
      if truthy value
      then text ← Html.unescape html5 s; mret (PStr text)
      else mret value
  | _ => mret value
  end.

(** [", ".join(signatures_raw) if signatures_raw else "Anonymous"] *)
Definition signatures_text (note : Note) : string :=
  let signatures_raw := _get_attr note signatures in
  if truthy signatures_raw
  then PyStr.join ", " (default [] signatures_raw)
  else "Anonymous".

(** [datetime.fromtimestamp(cdate / 1000).strftime(fmt) if cdate else unknown] *)
Definition date_text (note : Note) (fmt unknown : string) : res string :=
  let cdate := _get_attr note cdate in
  if truthy cdate
  then dt ← Datetime.fromtimestamp utcoffset (default 0 cdate);
       mret (Datetime.strftime dt fmt)
  else mret unknown.

(** A [for] loop that appends lines. *)
Definition for_each {A : Type} (l : list A) (body : A → res (list string))
  : res (list string) :=
  chunks ← mapM body l; mret (concat chunks).

(** Lines 34-87 of [format_note], which lines 172-225 of
    [_format_note_recursive] repeat word for word: the header and the
    content fields. *)
Definition header_and_content (note : Note) (level : nat)
  : res (list string) :=
  let indent := PyStr.repeat "  " level in
  let signatures := signatures_text note in
  date_str ← date_text note "%Y-%m-%d %H:%M:%S" "Unknown date";
  let markdown_lines :=
    [indent +:+ "## Comment by " +:+ signatures;
     indent +:+ "**Date:** " +:+ date_str;
     ""] in
  let content := _get_attr note content in
  if truthy content then
    let content := default [] content in
    title_lines ←
      match dict_get content "title" with
      | Some field =>
          if negb (Nat.eqb level 0) then
            title_value ← _extract_value field;
            if truthy title_value then
              text ← py_str title_value;
              mret [indent +:+ "**Title:** " +:+ text; ""]
            else mret []
          else mret []
      | None => mret []
      end;
    main_lines ← for_each ["comment"; "review"; "summary"; "response"]
      (λ field_name,
        match dict_get content field_name with
        | Some field =>
            field_value ← _extract_value field;
            if truthy field_value then
              match field_value with
              | PStr s =>
                  mret ([indent +:+ "**" +:+ PyStr.title field_name +:+ ":**"; ""]
                        ++ map (String.append indent) (PyStr.split PyStr.LF s)
                        ++ [""])
              | _ => Raise AttributeError
              end
            else mret []
        | None => mret []
        end);
    other_lines ← for_each
      ["rating"; "confidence"; "strengths"; "weaknesses"; "questions"]
      (λ field_name,
        match dict_get content field_name with
        | Some field =>
            field_value ← _extract_value field;
            if truthy field_value then
              text ← py_str field_value;
              mret [indent +:+ "**"
                      +:+ PyStr.title (PyStr.replace "_" " " field_name)
                      +:+ ":** " +:+ text; ""]
            else mret []
        | None => mret []
        end);
    mret (markdown_lines ++ title_lines ++ main_lines ++ other_lines)
  else mret markdown_lines.

(** [format_note], lines 20-105.  It calls itself on the notes of the
    reply summary: [fuel] is the depth of calls available, and running
    out of it is the interpreter's RecursionError. *)
Fixpoint format_note (fuel : nat) (note : Note) (include_replies : bool)
    (level : nat) : res string :=
  match fuel with
  | O => Raise RecursionError
  | S fuel =>
      let indent := PyStr.repeat "  " level in
      markdown_lines ← header_and_content note level;
      let details := _get_attr note details in
      reply_lines ←
        (if include_replies && truthy details then
           match details with
           | Some {| directReplies := Some replies |} =>
               if truthy replies then
                 reply_mds ← mapM (λ reply, format_note fuel reply true
                                               (S level))
                                  replies;
                 mret ([indent +:+ "### Replies:"; ""] ++ reply_mds)
               else mret []
           | _ => mret []   (* [details.get("directReplies", [])] is empty *)
           end
         else mret []);
      mret (PyStr.join (String PyStr.LF "")
              (markdown_lines ++ reply_lines ++ [indent +:+ "---"; ""]))
  end.

(** [_build_children_map], lines 131-154 *)
Definition cdate_key (n : Note) : Z :=
  if truthy (cdate n) then default 0 (cdate n) else 0.

Definition _build_children_map (notes : list Note)
  : gmap string (list Note) :=
  let children_map :=
    foldl (λ (children_map : gmap string (list Note)) note,
             let replyto := replyto note in
             if truthy replyto then
               let key := default "" replyto in
               <[key := default [] (children_map !! key) ++ [note]]>
                 children_map
             else children_map)
          ∅ notes in
  sorted cdate_key <$> children_map.

(** [_format_note_recursive], lines 156-243.  The recursion follows ids
    through [children_map] and is not structural: [fuel] is the depth of
    calls available, as in [format_note]. *)
Fixpoint _format_note_recursive (fuel : nat) (note : Note)
    (children_map : gmap string (list Note)) (level : nat) : res string :=
  match fuel with
  | O => Raise RecursionError
  | S fuel =>
      let indent := PyStr.repeat "  " level in
      markdown_lines ← header_and_content note level;
      let note_id := _get_attr note note_id in
      let replies :=
        if truthy note_id
        then default [] (children_map !! default "" note_id)
        else [] in
      reply_lines ←
        (if truthy replies then
           reply_mds ← mapM (λ reply, _format_note_recursive fuel reply
                                         children_map (S level))
                            replies;
           mret ([indent +:+ "### Replies:"; ""] ++ reply_mds)
         else mret []);
      mret (PyStr.join (String PyStr.LF "")
              (markdown_lines ++ reply_lines ++ [indent +:+ "---"; ""]))
  end.

(** [format_all_notes], lines 245-303 *)
Definition format_all_notes (fuel : nat) (notes : list Note)
    (submission_title : string) : res string :=
  let markdown_lines :=
    ["# " +:+ submission_title;
     "";
     "**Total Comments:** " +:+ PyStr.of_Z (Z.of_nat (length notes));
     "";
     "---";
     ""] in
  let sorted_notes := sorted cdate_key notes in
  let children_map := _build_children_map sorted_notes in
  let main_submission :=
    List.find (λ note, negb (truthy (replyto note))) sorted_notes in
  main_lines ←
    match main_submission with
    | Some main_submission =>
        md ← format_note fuel main_submission false 0;
        mret ["# Main Submission"; ""; md; ""]
    | None => mret []
    end;
  let top_level_comments :=
    match main_submission with
    | Some main_submission =>
        if truthy (note_id main_submission)
        then default [] (children_map !! default "" (note_id main_submission))
        else []
    | None => []
    end in
  comment_mds ← mapM (λ note, _format_note_recursive fuel note children_map 0)
                     top_level_comments;
  mret (PyStr.join (String PyStr.LF "")
          (markdown_lines ++ main_lines
           ++ ["# Comments and Reviews"; ""] ++ comment_mds)).

(** [format_note_to_file], lines 305-335 *)
Definition format_note_to_file (fuel : nat) (note : Note)
    (filename : string) : res (string * string) :=
  let signatures := signatures_text note in
  date_str ← date_text note "%Y%m%d" "unknown";
  let safe_filename :=
    date_str +:+ "_"
      +:+ PyStr.replace " " "_" (PyStr.replace "/" "_" signatures)
      +:+ ".md" in
  markdown ← format_note fuel note true 0;
  mret (markdown, safe_filename).

End MarkdownFormatter.

(** ** A sample environment and sample threads *)

(** [repr] of a string of printing ASCII characters that holds neither a
    quote nor a backslash. *)
Definition repr_simple (s : string) : string := "'" +:+ s +:+ "'".

Module Sample.

(** [create_mock_note] of tests/test_formatter.py *)
Definition create_mock_note (note_id : string) (signatures : list string)
    (cdate : Z) (content : list (string * PyVal)) (replyto : option string)
  : Note :=
  mkNote (Some note_id)
         (Some (if truthy signatures then signatures else ["Test Author"]))
         (Some cdate) (Some content) replyto (Some (mkDetails None 0)).

Definition wrapped (s : string) : PyVal := PDict [("value", PStr s)].

(** The thread of four: a root [S], its replies [C1] (t=100) and [C2]
    (t=200), and [G1] (t=300), a reply to [C1]; none has a [details]. *)
Definition S_ (signatures : option (list string))
    (content : option (list (string * PyVal))) : Note :=
  mkNote (Some "S") signatures None content None None.
Definition C1 (signatures : option (list string))
    (content : option (list (string * PyVal))) : Note :=
  mkNote (Some "C1") signatures (Some 100) content (Some "S") None.
Definition C2 (signatures : option (list string))
    (content : option (list (string * PyVal))) : Note :=
  mkNote (Some "C2") signatures (Some 200) content (Some "S") None.
Definition G1 (signatures : option (list string))
    (content : option (list (string * PyVal))) : Note :=
  mkNote (Some "G1") signatures (Some 300) content (Some "C1") None.

(** one filling of the thread, and the same with the latest note first *)
Definition thread_in_order : list Note :=
  [S_ (Some ["Authors"]) (Some [("title", wrapped "Paper")]);
   C1 (Some ["Reviewer 1"]) (Some [("comment", wrapped "C1 text")]);
   C2 (Some ["Reviewer 2"]) (Some [("comment", wrapped "C2 text")]);
   G1 (Some ["Authors"]) (Some [("comment", wrapped "G1 text")])].
Definition thread : list Note := reverse thread_in_order.

(** the thread, each note now with a reply summary that names [C2] only *)
Definition with_summary (n : Note) : Note :=
  mkNote (note_id n) (signatures n) (cdate n) (content n) (replyto n)
         (Some (mkDetails (Some [C2 None None]) 1)).
Definition thread_with_summaries : list Note :=
  with_summary <$> thread_in_order.

(** Replies to [S] from before 1970, from the first second of 1970 and
    without a timestamp; a later note without a parent *)
Definition early : Note :=
  mkNote (Some "E") None (Some (-5000)) None (Some "S") None.
Definition epoch : Note :=
  mkNote (Some "Z") None (Some 0) None (Some "S") None.
Definition undated : Note :=
  mkNote (Some "U") None None None (Some "S") None.
Definition late_root : Note :=
  mkNote (Some "L") (Some ["Editor"]) (Some 500) None None None.

(** A reply to a note that is not in the thread *)
Definition orphan : Note :=
  mkNote (Some "X") (Some ["Reviewer 3"]) (Some 400)
         (Some [("comment", wrapped "X text")]) (Some "missing") None.

(** A timestamp of the year 33658 *)
Definition far_future : Note :=
  mkNote (Some "n") (Some ["Reviewer"]) (Some 1000000000000000)
         None None None.

(** The second day of the year 1 *)
Definition year_one : Note :=
  mkNote (Some "n") (Some ["R"]) (Some (-62135510400000)) None None None.


(** A reply that carries the id of the root it answers *)
Definition root : Note :=
  mkNote (Some "S") None None None None None.
Definition echo : Note :=
  mkNote (Some "S") None None None (Some "S") None.

(** A comment whose wrapped value is a number *)
Definition numeric_comment : Note :=
  mkNote (Some "n") None None
         (Some [("comment", PDict [("value", PInt 42)])]) None None.


(** A note with nothing in it, and a note whose fields have the wrong
    shapes and whose reply summary holds the former *)
Definition bare : Note := mkNote None None None None None None.
Definition malformed : Note :=
  mkNote (Some "M") None (Some 0)
         (Some [("comment", PList [PStr "a"]);
                ("review", PDict [("value", PNone)]);
                ("summary", PDict []);
                ("rating", PDict [("value", PList [])])])
         (Some "S") (Some (mkDetails (Some [bare]) 0)).

(** A rating that holds a decimal reference of 4301 digits *)
Definition long_reference : Note :=
  mkNote (Some "n") None None
         (Some [("rating", PStr ("&#" +:+ PyStr.repeat "9" 4301 +:+ ";"))])
         None None.

(** Reply summaries nested [k] deep below a note *)
Fixpoint nested (k : nat) : Note :=
  match k with
  | O => bare
  | S k => mkNote None None None None None
                  (Some (mkDetails (Some [nested k]) 0))
  end.

(** [test_format_note_to_file] *)
Definition reviewer_abc : Note :=
  create_mock_note "test_id" ["Reviewer ABC"] 1609459200000
                   [("comment", wrapped "Test comment")] None.

(** A review that carries its one answer as a reply summary, and the
    answer *)
Definition answer : Note :=
  mkNote (Some "A") (Some ["Authors"]) (Some 200)
         (Some [("comment", wrapped "Thanks")]) (Some "R") None.
Definition review : Note :=
  mkNote (Some "R") (Some ["Reviewer 1"]) (Some 100)
         (Some [("review", wrapped "Good"); ("rating", PInt 8)])
         (Some "S") (Some (mkDetails (Some [answer]) 0)).

End Sample.

(** ** Notions the properties are stated with *)

(** [n] names [k] as its parent: a reference that is present and not empty *)
Definition is_reply_to (k : string) (n : Note) : Prop :=
  replyto n = Some k ∧ k ≠ "".

Global Instance is_reply_to_dec k n : Decision (is_reply_to k n).
Proof. unfold is_reply_to. apply _. Defined.

(** the replies the index holds for an id: [children_map.get(k, [])] *)
Definition children (children_map : gmap string (list Note)) (k : string)
  : list Note := default [] (children_map !! k).

Abbreviation nl := (String PyStr.LF "").

(** the block of a note: its lines, the lines of its replies, the rule *)
Definition block (level : nat) (lines reply_lines : list string) : string :=
  PyStr.join nl
    (lines ++ reply_lines ++ [PyStr.repeat "  " level +:+ "---"; ""]).

Definition replies_block (level : nat) (reply_mds : list string)
  : list string :=
  match reply_mds with
  | [] => []
  | _ => [PyStr.repeat "  " level +:+ "### Replies:"; ""] ++ reply_mds
  end.

(** The whole-thread render, by its parts: the index it walks, the root
    it chooses (the first note in creation order without a parent), the
    replies to that root, and the lines that open the document. *)
Definition reply_index (notes : list Note) : gmap string (list Note) :=
  _build_children_map (sorted cdate_key notes).

Definition is_root (note : Note) : bool := negb (truthy (replyto note)).

Definition chosen_root (notes : list Note) : option Note :=
  List.find is_root (sorted cdate_key notes).

Definition top_level (notes : list Note) : list Note :=
  match chosen_root notes with
  | Some main_submission =>
      if truthy (note_id main_submission)
      then children (reply_index notes)
                    (default "" (note_id main_submission))
      else []
  | None => []
  end.

Definition count_header (title : string) (n : nat) : list string :=
  ["# " +:+ title; "";
   "**Total Comments:** " +:+ PyStr.of_Z (Z.of_nat n); ""; "---"; ""].


(** Two notes that differ at most in their [details], and a note with
    its [details] taken away *)
Definition same_but_details (n n' : Note) : Prop :=
  note_id n = note_id n' ∧ signatures n = signatures n'
  ∧ cdate n = cdate n' ∧ content n = content n' ∧ replyto n = replyto n'.

Definition without_details (n : Note) : Note :=
  mkNote (note_id n) (signatures n) (cdate n) (content n) (replyto n) None.

(** [m] is a reply, a reply to a reply, ... of [p] along the index;
    the walk looks up the replies of a note only when its id is truthy *)
Inductive descends (children_map : gmap string (list Note))
  : Note → Note → Prop :=
| descends_child p m :
    truthy (note_id p) = true →
    m ∈ children children_map (default "" (note_id p)) →
    descends children_map p m
| descends_step p q m :
    truthy (note_id p) = true →
    q ∈ children children_map (default "" (note_id p)) →
    descends children_map q m →
    descends children_map p m.

Definition reachable (notes : list Note) (n : Note) : Prop :=
  ∃ r, chosen_root notes = Some r ∧ descends (reply_index notes) r n.

(** What [format_all_notes] writes below the count: the section of the
    main submission and the section of the comments *)
Definition thread_body (html5 : string → option string)
    (repr_str : string → string) (utcoffset : Z → Z)
    (fuel : nat) (notes : list Note) : res (list string) :=
  main_lines ←
    match chosen_root notes with
    | Some main_submission =>
        md ← format_note html5 repr_str utcoffset fuel main_submission
               false 0;
        mret ["# Main Submission"; ""; md; ""]
    | None => mret []
    end;
  comment_mds ←
    mapM (λ note, _format_note_recursive html5 repr_str utcoffset fuel note
                    (reply_index notes) 0)
         (top_level notes);
  mret (main_lines ++ ["# Comments and Reviews"; ""] ++ comment_mds).

(** ** Inputs on which the renderers return *)

Definition is_str (v : PyVal) : bool :=
  match v with PStr _ => true | _ => false end.

(** a value that [str] prints without going into a container: [None],
    a truth value, a float, a string, an integer within the limit on
    digits *)
Definition is_scalar (v : PyVal) : bool :=
  match v with
  | PNone | PBool _ | PFloat _ _ | PStr _ => true
  | PInt z =>
      negb (Nat.ltb PyStr.int_max_str_digits
              (String.length (PyStr.of_Z (Z.abs z))))
  | PList _ | PDict _ => false
  end.

(** The fields of a content that the renderers look up are fine: the
    extraction of each one that is present returns; it gives a string or
    a falsy value for the four text fields, and a scalar or a falsy value
    for the title and the five other fields. *)
Definition fields_ok (html5 : string → option string)
    (repr_str : string → string) (n : Note) : bool :=
  forallb
    (λ field_name,
       match dict_get (default [] (content n)) field_name with
       | Some field =>
           match _extract_value html5 repr_str field with
           | Ok v => negb (truthy v) || is_str v
           | Raise _ => false
           end
       | None => true
       end)
    ["comment"; "review"; "summary"; "response"]
  && forallb
       (λ field_name,
          match dict_get (default [] (content n)) field_name with
          | Some field =>
              match _extract_value html5 repr_str field with
              | Ok v => negb (truthy v) || is_scalar v
              | Raise _ => false
              end
          | None => true
          end)
       ["title"; "rating"; "confidence"; "strengths"; "weaknesses";
        "questions"].

(** The timestamp is missing, zero, or one [datetime.fromtimestamp]
    converts. *)
Definition timestamp_ok (utcoffset : Z → Z) (n : Note) : bool :=
  match cdate n with
  | Some c =>
      (c =? 0)
      || match Datetime.fromtimestamp utcoffset c with
         | Ok _ => true
         | Raise _ => false
         end
  | None => true
  end.

Definition header_ok (html5 : string → option string)
    (repr_str : string → string) (utcoffset : Z → Z) (n : Note) : bool :=
  timestamp_ok utcoffset n && fields_ok html5 repr_str n.

(** the replies of the reply summary, and a note that is fine together
    with all the notes of its reply summary, at every depth *)
Definition replies_of (n : Note) : list Note :=
  match details n with
  | Some {| directReplies := Some replies |} => replies
  | _ => []
  end.

Fixpoint well_formed (html5 : string → option string)
    (repr_str : string → string) (utcoffset : Z → Z) (n : Note)
    {struct n} : bool :=
  header_ok html5 repr_str utcoffset n
  && match details n with
     | Some {| directReplies := Some replies |} =>
         forallb (well_formed html5 repr_str utcoffset) replies
     | _ => true
     end.

(** No two notes of the list share an id that is present and not empty. *)
Definition unique_ids (notes : list Note) : Prop :=
  ∀ a b, a ∈ notes → b ∈ notes →
         truthy (note_id a) = true → note_id a = note_id b → a = b.

(** A path of the walk, the latest note first: it ends in a note without
    a parent, and each other note is in the index under the id of the
    next. *)
Inductive chain (notes : list Note) : list Note → Prop :=
| chain_root r :
    r ∈ notes → truthy (replyto r) = false → chain notes [r]
| chain_cons m p path :
    chain notes (p :: path) →
    truthy (note_id p) = true →
    m ∈ children (reply_index notes) (default "" (note_id p)) →
    chain notes (m :: p :: path).

(** The keys of a content that the renderers look up, and a note with
    another content *)
Definition known_keys : list string :=
  ["title"; "comment"; "review"; "summary"; "response";
   "rating"; "confidence"; "strengths"; "weaknesses"; "questions"].

Definition with_content (n : Note) (c : option (list (string * PyVal)))
  : Note :=
  mkNote (note_id n) (signatures n) (cdate n) c (replyto n) (details n).

(** [x] is a part of [s] *)
Definition occurs (x s : string) : Prop := ∃ pre post, s = pre +:+ x +:+ post.

(** The depth at which the walk of [format_all_notes] meets a note: 0 for
    the replies to the main submission, one more for each reply below. *)
Inductive at_depth (notes : list Note) : nat → Note → Prop :=
| at_depth_top t : t ∈ top_level notes → at_depth notes 0 t
| at_depth_reply d p m :
    at_depth notes d p →
    truthy (note_id p) = true →
    m ∈ children (reply_index notes) (default "" (note_id p)) →
    at_depth notes (S d) m.

(** The depth of the reply summaries below a note, itself counted *)
Fixpoint height (n : Note) : nat :=
  S (match details n with
     | Some {| directReplies := Some replies |} =>
         foldr (λ r acc, Nat.max (height r) acc) O replies
     | _ => O
     end).

(** The reply summaries of a note mirror an index: at the note and at
    every note below, the summary is the list the index holds for the id
    (no list for an id that is missing or empty). *)
Inductive mirrors (children_map : gmap string (list Note)) : Note → Prop :=
| mirrors_intro n :
    replies_of n
    = (if truthy (note_id n)
       then children children_map (default "" (note_id n))
       else []) →
    Forall (mirrors children_map) (replies_of n) →
    mirrors children_map n.

(** The sort key in the words of the data: the creation time, 0 for a
    note that has none *)
Definition created (n : Note) : Z :=
  match cdate n with
  | Some c => c
  | None => 0
  end.

(** * Properties *)

(** ** The stable sort *)

Section sorted_facts.
Context {A : Type} (key : A → Z).

Definition key_le (x y : A) : Prop := key x ≤ key y.

Lemma insert_by_perm x l : insert_by key x l ≡ₚ x :: l.
Proof.
  induction l as [|y l IH]; simpl; [done|].
  case_match; [done|]. rewrite IH. apply Permutation_swap.
Qed.

Lemma sorted_perm l : sorted key l ≡ₚ l.
Proof.
  induction l as [|x l IH]; simpl; [done|].
  by rewrite insert_by_perm, IH.
Qed.

Lemma elem_of_sorted x l : x ∈ sorted key l ↔ x ∈ l.
Proof. by rewrite sorted_perm. Qed.

Lemma length_sorted l : length (sorted key l) = length l.
Proof. by rewrite sorted_perm. Qed.

Lemma insert_by_sorted x l :
  StronglySorted key_le l → StronglySorted key_le (insert_by key x l).
Proof.
  induction 1 as [|y l Hl IH Hy]; simpl.
  - repeat constructor.
  - case_match eqn:Hxy.
    + apply Z.leb_le in Hxy. constructor; [by constructor|].
      constructor; [done|].
      eapply Forall_impl; [exact Hy|]. unfold key_le. intros; simpl in *; lia.
    + apply Z.leb_gt in Hxy. constructor; [done|].
      rewrite insert_by_perm. constructor; [|done].
      unfold key_le. lia.
Qed.

Lemma sorted_StronglySorted l : StronglySorted key_le (sorted key l).
Proof.
  induction l; simpl; [constructor|]. by apply insert_by_sorted.
Qed.

(** An element below all others goes to the front. *)
Lemma insert_by_head x l :
  Forall (key_le x) l → insert_by key x l = x :: l.
Proof.
  destruct 1 as [|y l Hy _]; simpl; [done|].
  apply Z.leb_le in Hy. by rewrite Hy.
Qed.

(** Sorting is the identity on a sorted list. *)
Lemma sorted_id l : StronglySorted key_le l → sorted key l = l.
Proof.
  induction 1 as [|x l _ IH Hx]; simpl; [done|].
  rewrite IH. by apply insert_by_head.
Qed.

Lemma sorted_idemp l : sorted key (sorted key l) = sorted key l.
Proof. apply sorted_id, sorted_StronglySorted. Qed.

(** Stability: the sort commutes with every selection. *)
Lemma filter_insert_by (P : A → Prop) `{!∀ x, Decision (P x)} x l :
  StronglySorted key_le l →
  filter P (insert_by key x l)
  = if decide (P x) then insert_by key x (filter P l) else filter P l.
Proof.
  induction 1 as [|y l Hl IH Hy]; simpl.
  - rewrite filter_cons, filter_nil. by case_decide.
  - destruct (key x <=? key y) eqn:Hxy.
    + apply Z.leb_le in Hxy. rewrite (filter_cons _ x).
      case_decide; [|done]. symmetry. apply insert_by_head.
      apply Forall_forall. intros z [_ Hz]%list_elem_of_filter.
      apply elem_of_cons in Hz as [->|Hz]; [done|].
      rewrite Forall_forall in Hy. specialize (Hy z Hz).
      unfold key_le in *. lia.
    + rewrite !(filter_cons _ y), IH.
      destruct (decide (P y)), (decide (P x)); simpl; try done.
      by rewrite Hxy.
Qed.

Lemma sorted_filter (P : A → Prop) `{!∀ x, Decision (P x)} l :
  filter P (sorted key l) = sorted key (filter P l).
Proof.
  induction l as [|x l IH]; simpl; [done|].
  rewrite filter_insert_by by apply sorted_StronglySorted.
  rewrite filter_cons, IH. by case_decide.
Qed.

Lemma find_sorted_filter (p : A → bool) (P : A → Prop)
    `{!∀ x, Decision (P x)} l r :
  List.find p l = Some r → P r → List.find p (filter P l) = Some r.
Proof.
  induction l as [|x l IH]; simpl; [done|]. intros Hf Hr.
  rewrite filter_cons. destruct (p x) eqn:Hx.
  - simplify_eq. rewrite decide_True by done. simpl. by rewrite Hx.
  - case_decide; simpl; [rewrite Hx|]; by apply IH.
Qed.

Lemma find_none_filter (p : A → bool) (P : A → Prop)
    `{!∀ x, Decision (P x)} l :
  List.find p l = None → List.find p (filter P l) = None.
Proof.
  induction l as [|x l IH]; simpl; [done|].
  rewrite filter_cons. destruct (p x) eqn:Hx; [done|]. intros Hf.
  case_decide; simpl; [rewrite Hx|]; by apply IH.
Qed.

(** Equal keys keep their order. *)
Lemma StronglySorted_same_key c l :
  Forall (λ x, key x = c) l → StronglySorted key_le l.
Proof.
  induction 1 as [|x l Hx Hl IH]; constructor; [done|].
  eapply Forall_impl; [exact Hl|]. unfold key_le. intros y Hy.
  simpl in *. lia.
Qed.

Lemma sorted_same_key c l :
  filter (λ x, key x = c) (sorted key l) = filter (λ x, key x = c) l.
Proof.
  rewrite sorted_filter. apply sorted_id, (StronglySorted_same_key c).
  apply Forall_forall. by intros x [? _]%list_elem_of_filter.
Qed.

(** The first element of the sorted list with a property *)
Lemma find_insert_by (p : A → bool) x l :
  StronglySorted key_le l →
  List.find p (insert_by key x l)
  = if p x then
      match List.find p l with
      | Some r => if key x <=? key r then Some x else Some r
      | None => Some x
      end
    else List.find p l.
Proof.
  induction 1 as [|y l Hl IH Hy]; simpl.
  - by destruct (p x).
  - destruct (key x <=? key y) eqn:Hxy; simpl.
    + destruct (p x) eqn:Hpx; [|done].
      destruct (if p y then Some y else List.find p l) as [r|] eqn:Hr;
        [|done].
      assert ((key x <=? key r) = true) as ->; [|done].
      apply Z.leb_le in Hxy. apply Z.leb_le.
      destruct (p y).
      * injection Hr as <-. done.
      * apply find_some in Hr as [Hr _]. apply list_elem_of_In in Hr.
        rewrite Forall_forall in Hy. specialize (Hy r Hr).
        unfold key_le in Hy. lia.
    + rewrite IH. destruct (p y) eqn:Hpy; [|done].
      destruct (p x); [|done]. by rewrite Hxy.
Qed.

Lemma find_sorted_least (p : A → bool) (l : list A) r n :
  StronglySorted key_le l →
  List.find p l = Some r → n ∈ l → p n = true → key r ≤ key n.
Proof.
  induction 1 as [|x l _ IH Hx]; intros Hr Hn Hpn.
  { by apply elem_of_nil in Hn. }
  simpl in Hr. destruct (p x) eqn:Hpx.
  - injection Hr as <-. apply elem_of_cons in Hn as [->|Hn]; [done|].
    rewrite Forall_forall in Hx. by apply Hx.
  - apply elem_of_cons in Hn as [->|Hn]; [congruence|by apply IH].
Qed.

Lemma find_sorted_first (p : A → bool) (l : list A) r :
  List.find p (sorted key l) = Some r →
  ∃ l1 l2,
    l = l1 ++ r :: l2
    ∧ (∀ n, n ∈ l1 → p n = true → key r < key n)
    ∧ (∀ n, n ∈ l2 → p n = true → key r ≤ key n).
Proof.
  revert r. induction l as [|x l IH]; intros r; [done|].
  change (sorted key (x :: l)) with (insert_by key x (sorted key l)).
  rewrite find_insert_by by apply sorted_StronglySorted.
  destruct (p x) eqn:Hpx.
  - destruct (List.find p (sorted key l)) as [r'|] eqn:Hr'.
    + destruct (key x <=? key r') eqn:Hxr; intros [= <-].
      * exists [], l. split; [done|]. split.
        { by intros n ?%elem_of_nil. }
        intros n Hn Hpn. apply Z.leb_le in Hxr.
        pose proof (find_sorted_least p (sorted key l) r' n
                      (sorted_StronglySorted l) Hr') as Hle.
        rewrite elem_of_sorted in Hle. specialize (Hle Hn Hpn). lia.
      * destruct (IH r' eq_refl) as (l1 & l2 & -> & H1 & H2).
        exists (x :: l1), l2. split; [done|]. split; [|done].
        intros n [->|Hn]%elem_of_cons Hpn; [|by apply H1].
        apply Z.leb_gt in Hxr. lia.
    + intros [= <-]. exists [], l. split; [done|]. split.
      { by intros n ?%elem_of_nil. }
      intros n Hn Hpn.
      assert (In n (sorted key l)) as Hin
        by (by apply list_elem_of_In, elem_of_sorted).
      apply (find_none _ _ Hr') in Hin. congruence.
  - intros Hr. destruct (IH r Hr) as (l1 & l2 & -> & H1 & H2).
    exists (x :: l1), l2. split; [done|]. split; [|done].
    intros n [->|Hn]%elem_of_cons Hpn; [congruence|by apply H1].
Qed.
End sorted_facts.

Lemma sorted_cons {A : Type} (key : A → Z) x l :
  sorted key (x :: l) = insert_by key x (sorted key l).
Proof. reflexivity. Qed.

Lemma sorted_fmap {A B : Type} (f : A → B) (kA : A → Z) (kB : B → Z) l :
  (∀ x, kB (f x) = kA x) → sorted kB (f <$> l) = f <$> sorted kA l.
Proof.
  intros Hk. induction l as [|x l IH]; [done|].
  rewrite fmap_cons, !sorted_cons, IH. generalize (sorted kA l). intros s.
  induction s as [|y s IHs]; [done|].
  rewrite fmap_cons. simpl insert_by. rewrite !Hk.
  case_match; rewrite ?fmap_cons; [done|]. by rewrite IHs.
Qed.

Lemma sorted_before {A} (key : A → Z) (l : list A) a b :
  StronglySorted (key_le key) l → a ∈ l → b ∈ l → key a < key b →
  ∃ l1 l2 l3, l = l1 ++ a :: l2 ++ b :: l3.
Proof.
  intros Hs Ha Hb Hab.
  apply list_elem_of_split in Ha as (l1 & l' & ->).
  apply elem_of_app in Hb as [Hb|Hb].
  - pose proof (StronglySorted_app_1_elem_of _ _ _ b a Hs Hb) as Hle.
    unfold key_le in Hle. specialize (Hle ltac:(left)). lia.
  - apply elem_of_cons in Hb as [->|Hb]; [lia|].
    apply list_elem_of_split in Hb as (l2 & l3 & ->). by exists l1, l2, l3.
Qed.

Lemma sorted_ext {A : Type} (key key' : A → Z) l :
  (∀ x, key x = key' x) → sorted key l = sorted key' l.
Proof.
  intros Hk. induction l as [|x l IH]; [done|].
  rewrite !sorted_cons, IH. generalize (sorted key' l). intros k.
  induction k as [|y k IHk]; [done|]. simpl. by rewrite !Hk, IHk.
Qed.

(** ** The reply index *)

Ltac unfold_truthy :=
  cbv [truthy truthy_option truthy_string truthy_Z truthy_list
       truthy_details truthy_PyVal] in *; simpl in *.

Lemma truthy_string_iff (s : string) : truthy s = true ↔ s ≠ "".
Proof. destruct s; unfold_truthy; split; congruence. Qed.

Lemma truthy_replyto n :
  truthy (replyto n) = true ↔ is_reply_to (default "" (replyto n)) n.
Proof.
  unfold is_reply_to. destruct (replyto n) as [k|]; simpl.
  - change (truthy (Some k)) with (truthy k).
    rewrite truthy_string_iff. split; [by intros ?|by intros [_ ?]].
  - split; [done|]. by intros [? _].
Qed.

Lemma is_reply_to_key k n : is_reply_to k n → default "" (replyto n) = k.
Proof. by intros [-> _]. Qed.

Section index_facts.

(** the loop of [_build_children_map] before the lists are sorted *)
Let step (children_map : gmap string (list Note)) (note : Note) :=
  let replyto := replyto note in
  if truthy replyto then
    let key := default "" replyto in
    <[key := default [] (children_map !! key) ++ [note]]> children_map
  else children_map.

Lemma collect_lookup notes (m : gmap string (list Note)) k :
  foldl step m notes !! k
  = match filter (is_reply_to k) notes with
    | [] => m !! k
    | c => Some (default [] (m !! k) ++ c)
    end.
Proof.
  revert m. induction notes as [|n notes IH]; intros m; simpl; [done|].
  rewrite IH, filter_cons. unfold step.
  destruct (truthy (replyto n)) eqn:Ht.
  - apply truthy_replyto in Ht.
    destruct (decide (is_reply_to k n)) as [Hk|Hk].
    + rewrite (is_reply_to_key _ _ Hk), lookup_insert_eq. simpl.
      destruct (filter _ notes); simpl; [done|].
      by rewrite <- app_assoc.
    + rewrite lookup_insert_ne; [done|]. by intros <-.
  - rewrite decide_False; [done|].
    intros Hk. apply not_true_iff_false in Ht. apply Ht.
    apply truthy_replyto. by rewrite (is_reply_to_key _ _ Hk).
Qed.

Lemma build_children_map_lookup notes k :
  _build_children_map notes !! k
  = match filter (is_reply_to k) notes with
    | [] => None
    | c => Some (sorted cdate_key c)
    end.
Proof.
  unfold _build_children_map. rewrite lookup_fmap.
  change (foldl _ ∅ notes) with (foldl step ∅ notes).
  rewrite collect_lookup, lookup_empty.
  by destruct (filter _ notes).
Qed.

Lemma children_build notes k :
  children (_build_children_map notes) k
  = sorted cdate_key (filter (is_reply_to k) notes).
Proof.
  unfold children. rewrite build_children_map_lookup.
  by destruct (filter _ notes).
Qed.

End index_facts.

Lemma cdate_key_missing n : cdate n = None → cdate_key n = 0.
Proof. unfold cdate_key. by intros ->. Qed.

Lemma cdate_key_present n c : cdate n = Some c → cdate_key n = c.
Proof.
  unfold cdate_key. intros ->. unfold_truthy.
  destruct (Z.eqb_spec c 0); simpl; [by subst|done].
Qed.

Lemma cdate_key_created n : cdate_key n = created n.
Proof.
  unfold created. destruct (cdate n) as [c|] eqn:Hc.
  - by apply cdate_key_present.
  - by apply cdate_key_missing.
Qed.

(** C5, as the code has it.  The reply index maps every id to exactly
    the notes that name it as their parent, in ascending order of the
    creation time with a missing one counted as 0, equal times keeping
    the order of the input: of two replies the one created strictly
    earlier comes first, so a reply without a creation time comes before
    every reply with a positive one, and the replies of one creation
    time are in the order the input has them.  An id nobody names has no
    entry, and a note without a parent is in no sequence. *)
Theorem build_children_map_spec (notes : list Note) (k : string) :
  let kids := children (_build_children_map notes) k in
  kids ≡ₚ filter (is_reply_to k) notes
  ∧ StronglySorted (λ a b, created a ≤ created b) kids
  ∧ kids = sorted created (filter (is_reply_to k) notes)
  ∧ (∀ a b, a ∈ kids → b ∈ kids → created a < created b →
       ∃ l1 l2 l3, kids = l1 ++ a :: l2 ++ b :: l3)
  ∧ (∀ a b c, a ∈ kids → b ∈ kids →
       cdate a = None → cdate b = Some c → 0 < c →
       ∃ l1 l2 l3, kids = l1 ++ a :: l2 ++ b :: l3)
  ∧ (∀ c, filter (λ n, created n = c) kids
          = filter (λ n, created n = c) (filter (is_reply_to k) notes))
  ∧ (∀ n, n ∈ kids ↔ n ∈ notes ∧ replyto n = Some k ∧ k ≠ "")
  ∧ (_build_children_map notes !! k = None
     ↔ ∀ n, n ∈ notes → ¬ is_reply_to k n)
  ∧ (∀ n k', truthy (replyto n) = false →
       n ∉ children (_build_children_map notes) k').
Proof.
  cbv zeta. rewrite children_build.
  rewrite (sorted_ext cdate_key created) by apply cdate_key_created.
  assert (∀ a b,
            a ∈ sorted created (filter (is_reply_to k) notes) →
            b ∈ sorted created (filter (is_reply_to k) notes) →
            created a < created b →
            ∃ l1 l2 l3,
              sorted created (filter (is_reply_to k) notes)
              = l1 ++ a :: l2 ++ b :: l3) as Hbefore.
  { intros a b. apply sorted_before, sorted_StronglySorted. }
  split_and!.
  - apply sorted_perm.
  - apply (sorted_StronglySorted created).
  - done.
  - exact Hbefore.
  - intros a b c Ha Hb Hca Hcb Hc. apply Hbefore; [done..|].
    unfold created. rewrite Hca, Hcb. done.
  - intros c. apply sorted_same_key.
  - intros n. rewrite elem_of_sorted, list_elem_of_filter.
    unfold is_reply_to. split; [intros [[? ?] ?]|intros (?&?&?)]; auto.
  - rewrite build_children_map_lookup.
    destruct (filter _ notes) as [|x c] eqn:Hf.
    + split; [|done]. intros _ n Hn Hk.
      by eapply (filter_nil_not_elem_of _ _ _ Hf).
    + split; [done|]. intros Hno. exfalso.
      assert (x ∈ filter (is_reply_to k) notes) as Hx
        by (rewrite Hf; left).
      apply list_elem_of_filter in Hx as [? ?]. by eapply Hno.
  - intros n k' Hn. rewrite children_build, elem_of_sorted, list_elem_of_filter.
    intros [Hk _]. apply not_true_iff_false in Hn. apply Hn.
    apply truthy_replyto. by rewrite (is_reply_to_key _ _ Hk).
Qed.

Lemma build_children_map_spec_witness :
  children (_build_children_map [Sample.epoch; Sample.undated; Sample.early])
    "S" = [Sample.early; Sample.epoch; Sample.undated]
  ∧ ∃ l1 l2 l3,
      children
        (_build_children_map [Sample.epoch; Sample.undated; Sample.early])
        "S" = l1 ++ Sample.early :: l2 ++ Sample.undated :: l3.
Proof.
  destruct (build_children_map_spec
              [Sample.epoch; Sample.undated; Sample.early] "S")
    as (_ & _ & Heq & Hbefore & _).
  split; [by rewrite Heq|].
  apply Hbefore; [rewrite Heq..|reflexivity].
  - left.
  - right. right. left.
Defined.

(** C5 as stated fails where it has the notes without a creation time
    sort first: a reply created before 1970 comes before them, and one
    created in the first second of 1970 stays before them when the input
    has it first. *)
Lemma build_children_map_undated_not_first :
  children (_build_children_map [Sample.undated; Sample.early]) "S"
  = [Sample.early; Sample.undated]
  ∧ children (_build_children_map [Sample.epoch; Sample.undated]) "S"
    = [Sample.epoch; Sample.undated].
Proof. by rewrite !children_build. Qed.

(** ** Unfolding the renderers *)

Section render_facts.
Variable html5 : string → option string.
Variable repr_str : string → string.
Variable utcoffset : Z → Z.

Abbreviation lines_of := (header_and_content html5 repr_str utcoffset).
Abbreviation walk := (_format_note_recursive html5 repr_str utcoffset).

Lemma bind_Ok {A B} (a : A) (k : A → res B) : (Ok a ≫= k) = k a.
Proof. reflexivity. Qed.

Lemma bind_Raise {A B} e (k : A → res B) : (Raise e ≫= k) = Raise e.
Proof. reflexivity. Qed.

Lemma mapM_nil {A B} (f : A → res B) : mapM f [] = Ok [].
Proof. reflexivity. Qed.

Lemma mapM_cons {A B} (f : A → res B) x l :
  mapM f (x :: l) = y ← f x; k ← mapM f l; mret (y :: k).
Proof. reflexivity. Qed.

Lemma mapM_res_ext {A B} (f g : A → res B) l :
  (∀ x, x ∈ l → f x = g x) → mapM f l = mapM g l.
Proof.
  induction l as [|x l IH]; intros Hfg; [done|].
  rewrite !mapM_cons, Hfg by left.
  rewrite IH; [done|]. intros y Hy. apply Hfg. by right.
Qed.

Lemma mapM_res_ok {A B} (f : A → res B) l :
  (∀ x, x ∈ l → is_ok (f x)) → is_ok (mapM f l).
Proof.
  induction l as [|x l IH]; intros Hf; [done|].
  rewrite mapM_cons. pose proof (Hf x ltac:(left)) as Hx.
  destruct (f x); [|done]. rewrite bind_Ok.
  destruct (mapM f l) eqn:Hl; [done|].
  apply IH. intros y Hy. apply Hf. by right.
Qed.

Lemma mapM_res_length {A B} (f : A → res B) l k :
  mapM f l = Ok k → length k = length l.
Proof.
  revert k. induction l as [|x l IH]; intros k.
  - rewrite mapM_nil. by intros [= <-].
  - rewrite mapM_cons. destruct (f x); [|done]. rewrite bind_Ok.
    destruct (mapM f l); [|done]. rewrite bind_Ok.
    intros [= <-]. simpl. f_equal. by apply IH.
Qed.

Lemma format_note_O note include_replies level :
  format_note html5 repr_str utcoffset O note include_replies level
  = Raise RecursionError.
Proof. reflexivity. Qed.

(** one call of [format_note] *)
Lemma format_note_unfold fuel note include_replies level :
  format_note html5 repr_str utcoffset (S fuel) note include_replies level
  = markdown_lines ← header_and_content html5 repr_str utcoffset note level;
    reply_lines ←
      (if include_replies && truthy (details note) then
         match details note with
         | Some {| directReplies := Some replies |} =>
             if truthy replies then
               reply_mds ←
                 mapM (λ reply, format_note html5 repr_str utcoffset fuel
                                  reply true (S level)) replies;
               mret ([PyStr.repeat "  " level +:+ "### Replies:"; ""]
                     ++ reply_mds)
             else mret []
         | _ => mret []
         end
       else mret []);
    mret (block level markdown_lines reply_lines).
Proof. reflexivity. Qed.

(** [format_note] without the reply summary *)
Lemma format_note_no_replies fuel note level :
  format_note html5 repr_str utcoffset (S fuel) note false level
  = lines ← lines_of note level; mret (block level lines []).
Proof. reflexivity. Qed.

(** one step of the index walk *)
Lemma walk_S fuel note children_map level :
  walk (S fuel) note children_map level
  = lines ← lines_of note level;
    reply_mds ← mapM (λ reply, walk fuel reply children_map (S level))
                     (if truthy (note_id note)
                      then children children_map (default "" (note_id note))
                      else []);
    mret (block level lines (replies_block level reply_mds)).
Proof.
  simpl. destruct (lines_of note level) as [lines|]; [|done].
  rewrite !bind_Ok. unfold _get_attr, children.
  destruct (if truthy (note_id note) then _ else _) as [|r rs]; [done|].
  cbn [truthy truthy_list].
  destruct (mapM _ (r :: rs)) as [[|md mds]|] eqn:Hm; [|reflexivity..].
  by apply mapM_res_length in Hm.
Qed.

(** [format_all_notes], laid out along the notions above *)
Lemma format_all_notes_unfold fuel notes title :
  format_all_notes html5 repr_str utcoffset fuel notes title
  = main_lines ←
      match chosen_root notes with
      | Some main_submission =>
          md ← format_note html5 repr_str utcoffset fuel main_submission
                 false 0;
          mret ["# Main Submission"; ""; md; ""]
      | None => mret []
      end;
    comment_mds ← mapM (λ note, walk fuel note (reply_index notes) 0)
                       (top_level notes);
    mret (PyStr.join nl
            (count_header title (length notes) ++ main_lines
             ++ ["# Comments and Reviews"; ""] ++ comment_mds)).
Proof. reflexivity. Qed.

Lemma walk_O note children_map level :
  walk O note children_map level = Raise RecursionError.
Proof. reflexivity. Qed.

End render_facts.

Ltac by_decide := apply (bool_decide_unpack _); vm_compute; exact I.

(** ** The empty thread *)

Section empty_thread.
Variable html5 : string → option string.
Variable repr_str : string → string.
Variable utcoffset : Z → Z.

(** C8.  The whole-thread render of the empty list is the title line,
    the count line for 0, the rule and the comments heading: no
    main-submission section is emitted. *)
Theorem format_all_notes_empty (fuel : nat) (submission_title : string) :
  let rest := [""; "**Total Comments:** 0"; ""; "---"; "";
               "# Comments and Reviews"; ""] in
  format_all_notes html5 repr_str utcoffset fuel [] submission_title
  = Ok (PyStr.join (String PyStr.LF "")
          (("# " +:+ submission_title) :: rest))
  ∧ "**Total Comments:** 0" ∈ rest
  ∧ "# Main Submission" ∉ rest.
Proof.
  cbv zeta. split_and!.
  - reflexivity.
  - by_decide.
  - by_decide.
Qed.
End empty_thread.

(** ** Field extraction *)

Section extraction.
Variable html5 : string → option string.
Variable repr_str : string → string.

Abbreviation extract := (_extract_value html5 repr_str).

Lemma unescape_no_amp s :
  PyStr.mem "&" s = false → Html.unescape html5 s = Ok s.
Proof. unfold Html.unescape. by intros ->. Qed.

Lemma extract_str s :
  s ≠ "" →
  extract (PStr s) = (text ← Html.unescape html5 s; mret (PStr text)).
Proof. destruct s; [done|]. reflexivity. Qed.

Lemma extract_wrapped d s :
  dict_get d "value" = Some (PStr s) → extract (PDict d) = extract (PStr s).
Proof. intros Hd. unfold _extract_value. by rewrite Hd. Qed.

Lemma extract_wrapped_str d s :
  dict_get d "value" = Some (PStr s) → s ≠ "" →
  extract (PDict d) = (text ← Html.unescape html5 s; mret (PStr text)).
Proof.
  intros Hd Hs. by rewrite (extract_wrapped d s), extract_str.
Qed.

Lemma mem_amp_uint u : PyStr.mem "&" (NilEmpty.string_of_uint u) = false.
Proof. induction u; simpl; auto. Qed.

Lemma mem_amp_of_Z z : PyStr.mem "&" (PyStr.of_Z z) = false.
Proof.
  unfold PyStr.of_Z, NilZero.string_of_int, NilZero.string_of_uint.
  destruct (Z.to_int z) as [u|u]; destruct u; simpl;
    auto using mem_amp_uint.
Qed.

Lemma of_Z_nonempty z : PyStr.of_Z z ≠ "".
Proof.
  unfold PyStr.of_Z, NilZero.string_of_int, NilZero.string_of_uint.
  destruct (Z.to_int z) as [u|u]; destruct u; simpl; discriminate.
Qed.

Lemma extract_int z text :
  PyStr.str_int z = Ok text → extract (PInt z) = Ok (PStr text).
Proof.
  intros Hz. unfold _extract_value, py_str, py_repr. rewrite Hz.
  unfold PyStr.str_int in Hz.
  destruct (Nat.ltb _ _); [done|]. injection Hz as <-.
  change (extract (PStr (PyStr.of_Z z)) = Ok (PStr (PyStr.of_Z z))).
  rewrite extract_str by apply of_Z_nonempty.
  by rewrite unescape_no_amp by apply mem_amp_of_Z.
Qed.

(** C2, at the inputs where the code leaves its contract.  The docstring
    of [_extract_value] promises "String value or None"; a wrapped number
    comes back as the number, a wrapped list as the list, and a raw
    boolean as the text of [str(True)]. *)
Theorem extract_value_not_str_or_none :
  _extract_value html5 repr_str (PDict [("value", PInt 42)]) = Ok (PInt 42)
  ∧ _extract_value html5 repr_str (PDict [("value", PList [PInt 1])])
    = Ok (PList [PInt 1])
  ∧ _extract_value html5 repr_str (PDict [("value", PBool true)])
    = Ok (PBool true)
  ∧ _extract_value html5 repr_str (PBool true) = Ok (PStr "True").
Proof. repeat split. Qed.

End extraction.

(** ** Entity decoding *)

Section decimal_reference.
Variable html5 : string → option string.

Lemma span_upto_digits n ds rest :
  forallb Html.is_digit (list_ascii_of_string ds) = true →
  (String.length ds < n)%nat →
  Html.span_upto n Html.is_digit (ds +:+ String ";" rest)
  = (ds, String ";" rest).
Proof.
  revert n. induction ds as [|c ds IH]; intros n Hds Hn.
  - destruct n; [simpl in Hn; lia|]. reflexivity.
  - destruct n as [|n]; [simpl in Hn; lia|].
    simpl in Hds. apply andb_true_iff in Hds as [Hc Hds].
    change (String c ds +:+ String ";" rest)
      with (String c (ds +:+ String ";" rest)).
    cbn [Html.span_upto]. rewrite Hc, IH; [done|done|].
    simpl in Hn. lia.
Qed.

Lemma length_app_semicolon ds rest :
  String.length (ds +:+ String ";" rest)
  = S (String.length ds + String.length rest)%nat.
Proof.
  induction ds as [|c ds IH]; [done|].
  change (String c ds +:+ String ";" rest)
    with (String c (ds +:+ String ";" rest)).
  cbn [String.length]. by rewrite IH.
Qed.

(** a decimal reference of more digits than [int] accepts *)
Lemma unescape_long_reference ds rest :
  forallb Html.is_digit (list_ascii_of_string ds) = true →
  (PyStr.int_max_str_digits < String.length ds)%nat →
  Html.unescape html5 ("&#" +:+ ds +:+ String ";" rest) = Raise ValueError.
Proof.
  intros Hds Hlen.
  change ("&#" +:+ ds +:+ String ";" rest)
    with (String "&" (String "#" (ds +:+ String ";" rest))).
  unfold Html.unescape. cbn [PyStr.mem]. cbn [Ascii.eqb Bool.eqb orb].
  cbn [Html.charref_sub]. cbn [Ascii.eqb Bool.eqb].
  unfold Html.match_charref, Html.span.
  rewrite span_upto_digits; [|done|rewrite length_app_semicolon; lia].
  destruct ds as [|c ds]; [unfold PyStr.int_max_str_digits in Hlen;
                             simpl in Hlen; lia|].
  cbn [PyStr.is_empty negb]. cbv iota.
  unfold Html.replace_charref, Html.int_dec.
  apply Nat.ltb_lt in Hlen. by rewrite Hlen.
Qed.

End decimal_reference.

Section decoding.
Variable html5 : string → option string.
Variable repr_str : string → string.

(** Three rows of [html.entities.html5] *)
Hypothesis html5_amp : html5 "amp;" = Some "&".
Hypothesis html5_lt : html5 "lt;" = Some "<".
Hypothesis html5_gt : html5 "gt;" = Some ">".

Abbreviation extract := (_extract_value html5 repr_str).

Ltac decode :=
  cbv -[html5];
  repeat first [rewrite html5_amp | rewrite html5_lt | rewrite html5_gt];
  reflexivity.

(** C3, as the code has it.  A string that extraction returns is the
    text of the field (a raw string, the inner string of a wrapped form
    [{value: s}], or [str] of a raw number) after one pass of
    [html.unescape] from the left, for the raw and for the wrapped form
    alike; a text without an ampersand is returned as it is; what the
    pass writes is not read again, so an input escaped twice keeps an
    entity; and a decimal reference of more than 4300 digits makes the
    extraction raise ValueError. *)
Theorem extract_value_decodes_once :
  _extract_value html5 repr_str (PStr "It&#39;s") = Ok (PStr "It's")
  ∧ _extract_value html5 repr_str (PStr "A &amp; B") = Ok (PStr "A & B")
  ∧ _extract_value html5 repr_str (PStr "&lt;x&gt;") = Ok (PStr "<x>")
  ∧ _extract_value html5 repr_str (PDict [("value", PStr "It&#39;s")])
    = Ok (PStr "It's")
  ∧ _extract_value html5 repr_str (PDict [("value", PStr "A &amp; B")])
    = Ok (PStr "A & B")
  ∧ _extract_value html5 repr_str (PDict [("value", PStr "&lt;x&gt;")])
    = Ok (PStr "<x>")
  ∧ (∀ s, s ≠ "" →
       _extract_value html5 repr_str (PStr s)
       = (text ← Html.unescape html5 s; mret (PStr text)))
  ∧ (∀ d s, dict_get d "value" = Some (PStr s) →
       _extract_value html5 repr_str (PDict d)
       = _extract_value html5 repr_str (PStr s))
  ∧ (∀ field out,
       _extract_value html5 repr_str field = Ok (PStr out) →
       ∃ s,
         (field = PStr s
          ∨ (∃ d, field = PDict d ∧ dict_get d "value" = Some (PStr s))
          ∨ (((∃ b, field = PBool b) ∨ (∃ z, field = PInt z)
              ∨ (∃ t nz, field = PFloat t nz))
             ∧ py_str repr_str field = Ok s))
         ∧ (if truthy s then Html.unescape html5 s = Ok out else out = s))
  ∧ (∀ s, PyStr.mem "&" s = false → Html.unescape html5 s = Ok s)
  ∧ _extract_value html5 repr_str (PStr "&amp;lt;") = Ok (PStr "&lt;")
  ∧ (∀ ds rest,
       forallb Html.is_digit (list_ascii_of_string ds) = true →
       (4300 < String.length ds)%nat →
       _extract_value html5 repr_str (PStr ("&#" +:+ ds +:+ String ";" rest))
       = Raise ValueError).
Proof.
  split_and!.
  - decode.
  - decode.
  - decode.
  - decode.
  - decode.
  - decode.
  - apply extract_str.
  - apply extract_wrapped.
  - intros field out. unfold _extract_value.
    assert (∀ s : string,
              (if truthy (PStr s)
               then text ← Html.unescape html5 s; mret (PStr text)
               else mret (PStr s)) = Ok (PStr out) →
              if truthy s then Html.unescape html5 s = Ok out else out = s)
      as Hs.
    { intros s. change (truthy (PStr s)) with (truthy s).
      destruct (truthy s).
      - destruct (Html.unescape html5 s) as [text|]; [|done].
        by intros [= ->].
      - by intros [= ->]. }
    destruct field as [|b|z|t nz|s|l|d].
    + done.
    + intros H. exists (if b then "True" else "False"). split.
      * right. right. split; [left; by exists b|done].
      * by apply Hs.
    + intros H. cbn [py_str py_repr] in H |- *.
      destruct (PyStr.str_int z) as [text|] eqn:Hz; [|done].
      exists text. split.
      * right. right. split; [right; left; by exists z|done].
      * by apply Hs.
    + intros H. exists t. split.
      * right. right. split; [right; right; by exists t, nz|done].
      * by apply Hs.
    + intros H. exists s. split; [by left|]. by apply Hs.
    + done.
    + intros H. rewrite bind_Ok in H.
      destruct (dict_get d "value") as [[| | | |s| |]|] eqn:Hd;
        cbn [default from_option id] in H; try done.
      exists s. split; [right; left; by exists d|]. by apply Hs.
  - apply unescape_no_amp.
  - decode.
  - intros ds rest Hds Hlen.
    destruct ds as [|c ds]; [simpl in Hlen; lia|].
    change ("&#" +:+ String c ds +:+ String ";" rest)
      with (String "&" ("#" +:+ String c ds +:+ String ";" rest)).
    rewrite extract_str by done.
    change (String "&" ("#" +:+ String c ds +:+ String ";" rest))
      with ("&#" +:+ String c ds +:+ String ";" rest).
    by rewrite unescape_long_reference.
Qed.
End decoding.

Lemma extract_value_decodes_once_witness :
  (Html.html5_xml "amp;" = Some "&" ∧ Html.html5_xml "lt;" = Some "<"
   ∧ Html.html5_xml "gt;" = Some ">")
  ∧ _extract_value Html.html5_xml repr_simple (PStr "A &amp; B")
    = Ok (PStr "A & B")
  ∧ _extract_value Html.html5_xml repr_simple
      (PDict [("value", PStr "&lt;x&gt;")])
    = Ok (PStr "<x>")
  ∧ _extract_value Html.html5_xml repr_simple (PStr "&amp;lt;")
    = Ok (PStr "&lt;").
Proof.
  split; [repeat split|].
  pose proof (extract_value_decodes_once Html.html5_xml repr_simple
                eq_refl eq_refl eq_refl)
    as (_ & H2 & _ & _ & _ & H6 & _ & _ & _ & _ & H11 & _).
  exact (conj H2 (conj H6 H11)).
Defined.

(** C3 as stated fails: the text returned for a twice-escaped less-than
    sign still holds the entity of the sign. *)
Lemma extract_value_keeps_entity :
  ∃ out, _extract_value Html.html5_xml repr_simple (PStr "&amp;lt;")
         = Ok (PStr out)
         ∧ PyStr.contains "&lt;" out = true.
Proof. exists "&lt;". split; reflexivity. Qed.

(** ** The thread of four *)

Lemma children_reply_index notes k :
  children (reply_index notes) k
  = sorted cdate_key (filter (is_reply_to k) notes).
Proof.
  unfold reply_index.
  by rewrite children_build, <- sorted_filter, sorted_idemp, sorted_filter.
Qed.

(** The whole-thread render sees its input only through its length and
    its sorted form. *)
Lemma format_all_notes_sorted html5 repr_str utcoffset fuel notes title :
  format_all_notes html5 repr_str utcoffset fuel notes title
  = format_all_notes html5 repr_str utcoffset fuel
      (sorted cdate_key notes) title.
Proof.
  unfold format_all_notes. by rewrite sorted_idemp, length_sorted.
Qed.

Section thread_of_four.
Variable html5 : string → option string.
Variable repr_str : string → string.
Variable utcoffset : Z → Z.
(** the signatures and the content of the four notes are arbitrary *)
Variables sigS sig1 sig2 sigG : option (list string).
Variables conS con1 con2 conG : option (list (string * PyVal)).

Abbreviation nS := (Sample.S_ sigS conS).
Abbreviation n1 := (Sample.C1 sig1 con1).
Abbreviation n2 := (Sample.C2 sig2 con2).
Abbreviation nG := (Sample.G1 sigG conG).
Abbreviation lines_of := (header_and_content html5 repr_str utcoffset).

Lemma four_sorted notes :
  notes ≡ₚ [nS; n1; n2; nG] → sorted cdate_key notes = [nS; n1; n2; nG].
Proof.
  intros Hperm. symmetry in Hperm.
  apply permutations_Permutation in Hperm. vm_compute in Hperm.
  repeat (apply elem_of_cons in Hperm as [->|Hperm]);
    [..|by apply elem_of_nil in Hperm]; reflexivity.
Qed.

Lemma four_children k :
  children (reply_index [nS; n1; n2; nG]) k
  = if decide (k = "S") then [n1; n2]
    else if decide (k = "C1") then [nG] else [].
Proof.
  rewrite children_reply_index.
  destruct (decide (k = "S")) as [->|HS]; [by vm_compute|].
  destruct (decide (k = "C1")) as [->|H1]; [by vm_compute|].
  rewrite !filter_cons_False, filter_nil; [done|..];
    intros [Hk _]; simpl in Hk; congruence.
Qed.

(** C1.  Whatever the order of the input list, the whole-thread render
    of the four notes puts the block of [C1] before the block of [C2],
    and the block of [G1], one level deeper, inside the block of [C1]:
    after the header and content of [C1], under its replies heading, and
    before the rule that closes [C1]. *)
Theorem format_all_notes_nests_replies (fuel : nat)
    (notes : list Note) (lS l1 l2 lG : list string) :
  (2 ≤ fuel)%nat →
  notes ≡ₚ [nS; n1; n2; nG] →
  lines_of nS 0 = Ok lS → lines_of n1 0 = Ok l1 →
  lines_of n2 0 = Ok l2 → lines_of nG 1 = Ok lG →
  format_all_notes html5 repr_str utcoffset fuel notes "T"
  = Ok (PyStr.join nl
          ["# T"; ""; "**Total Comments:** 4"; ""; "---"; "";
           "# Main Submission"; "";
           PyStr.join nl (lS ++ ["---"; ""]); "";
           "# Comments and Reviews"; "";
           PyStr.join nl
             (l1 ++ ["### Replies:"; "";
                     PyStr.join nl (lG ++ ["  ---"; ""])]
                 ++ ["---"; ""]);
           PyStr.join nl (l2 ++ ["---"; ""])]).
Proof.
  intros Hfuel Hperm HS H1 H2 HG.
  destruct fuel as [|[|fuel]]; [lia..|].
  rewrite format_all_notes_sorted, (four_sorted _ Hperm).
  rewrite format_all_notes_unfold.
  assert (chosen_root [nS; n1; n2; nG] = Some nS) as Hroot by reflexivity.
  assert (top_level [nS; n1; n2; nG] = [n1; n2]) as ->.
  { unfold top_level. rewrite Hroot.
    change (truthy (note_id nS)) with true. cbv iota.
    change (default "" (note_id nS)) with "S".
    by rewrite four_children. }
  rewrite Hroot.
  assert (children (reply_index [nS; n1; n2; nG]) "C1" = [nG]) as Hc1
    by (by rewrite four_children).
  assert (children (reply_index [nS; n1; n2; nG]) "C2" = []) as Hc2
    by (by rewrite four_children).
  assert (children (reply_index [nS; n1; n2; nG]) "G1" = []) as HcG
    by (by rewrite four_children).
  revert Hc1 Hc2 HcG. generalize (reply_index [nS; n1; n2; nG]).
  intros cm Hc1 Hc2 HcG.
  rewrite format_note_no_replies, HS, !bind_Ok.
  rewrite !mapM_cons, mapM_nil, !walk_S, H1, H2, !bind_Ok.
  change (truthy (note_id n1)) with true.
  change (truthy (note_id n2)) with true.
  change (default "" (note_id n1)) with "C1".
  change (default "" (note_id n2)) with "C2".
  cbv iota. rewrite Hc1, Hc2, mapM_cons, !mapM_nil, walk_S, HG, !bind_Ok.
  change (truthy (note_id nG)) with true.
  change (default "" (note_id nG)) with "G1".
  cbv iota. rewrite HcG, mapM_nil, !bind_Ok.
  reflexivity.
Qed.
End thread_of_four.


Lemma format_all_notes_nests_replies_witness :
  ∃ out,
    format_all_notes Html.html5_xml repr_simple Datetime.utc 2
      Sample.thread "T" = Ok out
    ∧ PyStr.find "C1 text" out = Some 198%nat
    ∧ PyStr.find "G1 text" out = Some 296%nat
    ∧ PyStr.find "C2 text" out = Some 387%nat.
Proof.
  eexists. split.
  - eapply (format_all_notes_nests_replies Html.html5_xml repr_simple
              Datetime.utc
              (Some ["Authors"]) (Some ["Reviewer 1"]) (Some ["Reviewer 2"])
              (Some ["Authors"])
              (Some [("title", Sample.wrapped "Paper")])
              (Some [("comment", Sample.wrapped "C1 text")])
              (Some [("comment", Sample.wrapped "C2 text")])
              (Some [("comment", Sample.wrapped "G1 text")])
              2 Sample.thread); [lia|exact (reverse_Permutation Sample.thread_in_order)|..].
    all: vm_compute; reflexivity.
  - repeat split; vm_compute; reflexivity.
Defined.

(** ** The file unit *)

Section file_unit.
Variable html5 : string → option string.
Variable repr_str : string → string.
Variable utcoffset : Z → Z.





Lemma strftime_compact dt :
  Datetime.strftime dt "%Y%m%d"
  = PyStr.of_Z (Datetime.year dt) +:+ PyStr.pad 2 (Datetime.month dt)
      +:+ PyStr.pad 2 (Datetime.day dt) +:+ "".
Proof. reflexivity. Qed.


End file_unit.



(** The date of a name has fewer than eight characters for a year
    before 1000. *)
Lemma format_note_to_file_short_year :
  snd <$> format_note_to_file Html.html5_xml repr_simple Datetime.utc 1000
            Sample.year_one ""
  = Ok "10102_R.md".
Proof. vm_compute. reflexivity. Qed.

(** ** The title line *)

Section title_line.
Variable html5 : string → option string.
Variable repr_str : string → string.
Variable utcoffset : Z → Z.







End title_line.



(** ** The whole-thread render does not read the reply summaries *)

Section details_unread.
Variable html5 : string → option string.
Variable repr_str : string → string.
Variable utcoffset : Z → Z.

Lemma same_but_details_eq n n' :
  same_but_details n n' → without_details n = without_details n'.
Proof.
  destruct n, n'. unfold same_but_details, without_details. simpl.
  by intros (-> & -> & -> & -> & ->).
Qed.

Lemma Forall2_same_but_details notes notes' :
  Forall2 same_but_details notes notes' →
  without_details <$> notes = without_details <$> notes'.
Proof.
  induction 1 as [|n n' l l' Hn _ IH]; [done|].
  rewrite !fmap_cons. f_equal; [by apply same_but_details_eq|done].
Qed.

Lemma header_and_content_without_details n level :
  header_and_content html5 repr_str utcoffset (without_details n) level
  = header_and_content html5 repr_str utcoffset n level.
Proof. by destruct n. Qed.

Lemma mapM_res_fmap {A B C} (f : B → res C) (g : A → B) l :
  mapM f (g <$> l) = mapM (f ∘ g) l.
Proof.
  induction l as [|x l IH]; [done|].
  by rewrite fmap_cons, !mapM_cons, IH.
Qed.

Lemma walk_without_details fuel n cm cm' level :
  (∀ k, children cm' k = without_details <$> children cm k) →
  _format_note_recursive html5 repr_str utcoffset fuel (without_details n)
    cm' level
  = _format_note_recursive html5 repr_str utcoffset fuel n cm level.
Proof.
  intros Hcm. revert n level.
  induction fuel as [|fuel IH]; intros n level; [done|].
  rewrite !walk_S, header_and_content_without_details.
  change (note_id (without_details n)) with (note_id n).
  destruct (header_and_content _ _ _ n level) as [lines|]; [|done].
  rewrite !bind_Ok.
  destruct (truthy (note_id n)); [|done].
  rewrite Hcm, mapM_res_fmap.
  by rewrite (mapM_res_ext _
    (λ reply, _format_note_recursive html5 repr_str utcoffset fuel
                reply cm (S level))) by (intros; apply IH).
Qed.

Lemma sorted_without_details (notes : list Note) :
  sorted cdate_key (without_details <$> notes)
  = without_details <$> sorted cdate_key notes.
Proof. apply sorted_fmap. by intros []. Qed.

Lemma filter_without_details k (notes : list Note) :
  filter (is_reply_to k) (without_details <$> notes)
  = without_details <$> filter (is_reply_to k) notes.
Proof.
  induction notes as [|n notes IH]; [done|].
  rewrite fmap_cons. destruct (decide (is_reply_to k n)) as [Hn|Hn].
  - rewrite !filter_cons_True by (by destruct n). by rewrite fmap_cons, IH.
  - rewrite !filter_cons_False by (by destruct n). done.
Qed.

Lemma children_without_details notes k :
  children (reply_index (without_details <$> notes)) k
  = without_details <$> children (reply_index notes) k.
Proof.
  by rewrite !children_reply_index, filter_without_details,
    sorted_without_details.
Qed.

Lemma find_without_details (notes : list Note) :
  List.find is_root (without_details <$> notes)
  = without_details <$> List.find is_root notes.
Proof.
  induction notes as [|n notes IH]; [done|].
  rewrite fmap_cons. cbn [List.find].
  change (is_root (without_details n)) with (is_root n).
  by destruct (is_root n).
Qed.

Lemma chosen_root_without_details notes :
  chosen_root (without_details <$> notes)
  = without_details <$> chosen_root notes.
Proof.
  unfold chosen_root.
  by rewrite sorted_without_details, find_without_details.
Qed.

Lemma top_level_without_details notes :
  top_level (without_details <$> notes)
  = without_details <$> top_level notes.
Proof.
  unfold top_level. rewrite chosen_root_without_details.
  destruct (chosen_root notes) as [r|]; [|done].
  cbn [fmap option_fmap option_map].
  change (note_id (without_details r)) with (note_id r).
  destruct (truthy (note_id r)); [|done].
  apply children_without_details.
Qed.

Lemma format_all_notes_without_details fuel notes title :
  format_all_notes html5 repr_str utcoffset fuel (without_details <$> notes)
    title
  = format_all_notes html5 repr_str utcoffset fuel notes title.
Proof.
  rewrite !format_all_notes_unfold.
  rewrite chosen_root_without_details, top_level_without_details,
    length_fmap, mapM_res_fmap.
  rewrite (mapM_res_ext _
    (λ note, _format_note_recursive html5 repr_str utcoffset fuel note
               (reply_index notes) 0))
    by (intros; apply walk_without_details, children_without_details).
  destruct (chosen_root notes) as [r|]; [|done].
  cbn [fmap option_fmap option_map].
  destruct fuel as [|fuel]; [done|].
  by rewrite !format_note_no_replies, header_and_content_without_details.
Qed.

(** C4.  Two lists of notes that agree, note by note, on everything but
    [details] have the same whole-thread render, whether a text or an
    exception: the render does not depend on any reply summary. *)
Theorem format_all_notes_ignores_details (fuel : nat)
    (notes notes' : list Note) (submission_title : string) :
  Forall2 same_but_details notes notes' →
  format_all_notes html5 repr_str utcoffset fuel notes submission_title
  = format_all_notes html5 repr_str utcoffset fuel notes' submission_title.
Proof.
  intros H. apply Forall2_same_but_details in H.
  rewrite <- (format_all_notes_without_details fuel notes).
  rewrite <- (format_all_notes_without_details fuel notes').
  by rewrite H.
Qed.

End details_unread.

Lemma format_all_notes_ignores_details_witness :
  Forall2 same_but_details Sample.thread_in_order Sample.thread_with_summaries
  ∧ format_all_notes Html.html5_xml repr_simple Datetime.utc 2
      Sample.thread_in_order "T"
    = format_all_notes Html.html5_xml repr_simple Datetime.utc 2
        Sample.thread_with_summaries "T".
Proof.
  assert (Forall2 same_but_details Sample.thread_in_order
            Sample.thread_with_summaries) as H.
  { repeat constructor. }
  split; [exact H|].
  exact (format_all_notes_ignores_details Html.html5_xml repr_simple
           Datetime.utc 2 _ _ "T" H).
Defined.

(** ** Notes the walk does not reach *)

Section unreached.
Variable html5 : string → option string.
Variable repr_str : string → string.
Variable utcoffset : Z → Z.

Lemma format_all_notes_body fuel notes title :
  format_all_notes html5 repr_str utcoffset fuel notes title
  = body ← thread_body html5 repr_str utcoffset fuel notes;
    mret (PyStr.join nl (count_header title (length notes) ++ body)).
Proof.
  rewrite format_all_notes_unfold. unfold thread_body.
  destruct (match chosen_root notes with Some _ => _ | None => _ end);
    [|done].
  rewrite !bind_Ok. by destruct (mapM _ _).
Qed.

Lemma walk_agree fuel n cm cm' level :
  (truthy (note_id n) = true →
   children cm' (default "" (note_id n))
   = children cm (default "" (note_id n))) →
  (∀ m, descends cm n m → truthy (note_id m) = true →
        children cm' (default "" (note_id m))
        = children cm (default "" (note_id m))) →
  _format_note_recursive html5 repr_str utcoffset fuel n cm' level
  = _format_note_recursive html5 repr_str utcoffset fuel n cm level.
Proof.
  revert n level. induction fuel as [|fuel IH]; intros n level Hn Hd; [done|].
  rewrite !walk_S.
  destruct (header_and_content _ _ _ n level) as [lines|]; [|done].
  rewrite !bind_Ok.
  destruct (truthy (note_id n)) eqn:Hid; [|done].
  rewrite Hn by done.
  rewrite (mapM_res_ext _
    (λ reply, _format_note_recursive html5 repr_str utcoffset fuel
                reply cm (S level))); [done|].
  intros reply Hr. apply IH.
  - intros Hrid. apply Hd; [|done]. by apply descends_child.
  - intros m Hm Hmid. apply Hd; [|done]. by eapply descends_step.
Qed.

Lemma elem_of_children notes k n :
  n ∈ children (reply_index notes) k ↔ n ∈ notes ∧ is_reply_to k n.
Proof.
  by rewrite children_reply_index, elem_of_sorted, list_elem_of_filter,
    (comm and).
Qed.

Lemma chosen_root_spec notes r :
  chosen_root notes = Some r → r ∈ notes ∧ is_root r = true.
Proof.
  unfold chosen_root. intros Hr. apply find_some in Hr as [Hr ?].
  split; [|done]. apply (elem_of_sorted cdate_key). by apply list_elem_of_In.
Qed.

Lemma descends_parent notes p n :
  p ∈ notes → descends (reply_index notes) p n →
  ∃ q, q ∈ notes ∧ truthy (note_id q) = true
       ∧ n ∈ notes ∧ is_reply_to (default "" (note_id q)) n.
Proof.
  intros Hp Hd. induction Hd as [p m Hid Hm|p q m Hid Hq _ IH].
  - apply elem_of_children in Hm as [? ?]. by exists p.
  - apply IH. by apply elem_of_children in Hq as [? ?].
Qed.

Lemma reachable_parent notes n :
  reachable notes n →
  ∃ q, q ∈ notes ∧ truthy (note_id q) = true
       ∧ n ∈ notes ∧ is_reply_to (default "" (note_id q)) n.
Proof.
  intros (r & Hr & Hd). apply chosen_root_spec in Hr as [Hr _].
  by eapply descends_parent.
Qed.

Lemma filter_filter_sub {A} (P Q : A → Prop) `{!∀ x, Decision (P x)}
    `{!∀ x, Decision (Q x)} (l : list A) :
  (∀ x, x ∈ l → Q x → P x) → filter Q (filter P l) = filter Q l.
Proof.
  induction l as [|x l IH]; intros Hsub; [done|].
  assert (filter Q (filter P l) = filter Q l) as IH'.
  { apply IH. intros y Hy. apply Hsub. by right. }
  destruct (decide (Q x)) as [Hq|Hq].
  - rewrite (filter_cons_True P) by (apply Hsub; [left|done]).
    by rewrite !(filter_cons_True Q), IH' by done.
  - rewrite (filter_cons_False Q) by done.
    destruct (decide (P x)).
    + rewrite (filter_cons_True P) by done.
      by rewrite (filter_cons_False Q) by done.
    + by rewrite (filter_cons_False P) by done.
Qed.

Section keep.
Context (P : Note → Prop) `{!∀ n, Decision (P n)}.
Variable notes : list Note.
Hypothesis keep_root : ∀ r, chosen_root notes = Some r → P r.
Hypothesis keep_reachable : ∀ n, reachable notes n → P n.

Lemma chosen_root_filter : chosen_root (filter P notes) = chosen_root notes.
Proof.
  unfold chosen_root. rewrite <- sorted_filter.
  destruct (List.find is_root (sorted cdate_key notes)) as [r|] eqn:Hr.
  - apply find_sorted_filter; [done|]. by apply keep_root.
  - by apply find_none_filter.
Qed.

Lemma children_filter_root r :
  chosen_root notes = Some r → truthy (note_id r) = true →
  children (reply_index (filter P notes)) (default "" (note_id r))
  = children (reply_index notes) (default "" (note_id r)).
Proof.
  intros Hr Hid. rewrite !children_reply_index. f_equal.
  apply filter_filter_sub. intros x Hx Hq. apply keep_reachable.
  exists r. split; [done|]. apply descends_child; [done|].
  by apply elem_of_children.
Qed.

Lemma children_filter_reachable m :
  reachable notes m → truthy (note_id m) = true →
  children (reply_index (filter P notes)) (default "" (note_id m))
  = children (reply_index notes) (default "" (note_id m)).
Proof.
  intros (r & Hr & Hd) Hid. rewrite !children_reply_index. f_equal.
  apply filter_filter_sub. intros x Hx Hq. apply keep_reachable.
  exists r. split; [done|].
  assert (descends (reply_index notes) m x) as Hmx.
  { apply descends_child; [done|]. by apply elem_of_children. }
  clear -Hd Hmx. induction Hd as [p m Hid Hm|p q m Hid Hq _ IH].
  - by eapply descends_step.
  - eapply descends_step; [done..|]. by apply IH.
Qed.

Lemma top_level_filter : top_level (filter P notes) = top_level notes.
Proof.
  unfold top_level. rewrite chosen_root_filter.
  destruct (chosen_root notes) as [r|] eqn:Hr; [|done].
  destruct (truthy (note_id r)) eqn:Hid; [|done].
  by apply children_filter_root.
Qed.

Lemma thread_body_filter fuel :
  thread_body html5 repr_str utcoffset fuel (filter P notes)
  = thread_body html5 repr_str utcoffset fuel notes.
Proof.
  unfold thread_body. rewrite chosen_root_filter, top_level_filter.
  rewrite (mapM_res_ext _
    (λ note, _format_note_recursive html5 repr_str utcoffset fuel note
               (reply_index notes) 0)); [done|].
  intros t Ht. unfold top_level in Ht.
  destruct (chosen_root notes) as [r|] eqn:Hr; [|by apply elem_of_nil in Ht].
  destruct (truthy (note_id r)) eqn:Hid; [|by apply elem_of_nil in Ht].
  assert (reachable notes t) as Hrt.
  { exists r. split; [done|]. by apply descends_child. }
  apply walk_agree.
  - by apply children_filter_reachable.
  - intros m Hm. apply children_filter_reachable.
    destruct Hrt as (r' & Hr' & Hd). exists r'. split; [done|].
    clear -Hd Hm. induction Hd as [p t Hid Ht|p q t Hid Hq _ IH].
    + by eapply descends_step.
    + eapply descends_step; [done..|]. by apply IH.
Qed.

End keep.

Lemma thread_body_no_root fuel notes :
  chosen_root notes = None →
  thread_body html5 repr_str utcoffset fuel notes
  = Ok ["# Comments and Reviews"; ""].
Proof. unfold thread_body, top_level. by intros ->. Qed.

Lemma unanswered_unreachable notes n k :
  replyto n = Some k → k ≠ "" →
  (∀ p, p ∈ notes → note_id p ≠ Some k) →
  chosen_root notes ≠ Some n ∧ ¬ reachable notes n.
Proof.
  intros Hn Hk Hnone. split.
  - intros [_ Hr]%chosen_root_spec. unfold is_root in Hr.
    rewrite Hn in Hr. apply negb_true_iff in Hr.
    change (truthy (Some k)) with (truthy k) in Hr.
    by apply not_true_iff_false in Hr; rewrite truthy_string_iff in Hr.
  - intros (q & Hq & Hid & _ & Hqn & _)%reachable_parent.
    apply (Hnone q Hq). rewrite Hn in Hqn. injection Hqn as ->.
    by destruct (note_id q).
Qed.

(** C10.  Let [P] be any decidable set of notes that holds the chosen
    root and every note reachable from it along the index.  The render
    of the whole list and the render of the notes in [P] alone are the
    same below the count line (or raise the same exception): the notes
    outside [P] add nothing to the output, yet the count line counts
    them.  When there is no root the output is the count lines and the
    empty comments section, whatever the notes.  A note whose parent is
    the id of no note of the list is neither the root nor reachable. *)
Theorem format_all_notes_unreached (fuel : nat) (notes : list Note)
    (submission_title : string) :
  (∀ (P : Note → Prop) (dec : ∀ n, Decision (P n)),
     (∀ r, chosen_root notes = Some r → P r) →
     (∀ n, reachable notes n → P n) →
     match
       format_all_notes html5 repr_str utcoffset fuel notes submission_title,
       format_all_notes html5 repr_str utcoffset fuel (filter P notes)
         submission_title
     with
     | Ok out, Ok out' =>
         ∃ body,
           out = PyStr.join nl
                   (count_header submission_title (length notes) ++ body)
           ∧ out' = PyStr.join nl
                      (count_header submission_title
                         (length (filter P notes)) ++ body)
     | Raise e, Raise e' => e = e'
     | _, _ => False
     end)
  ∧ (chosen_root notes = None →
     format_all_notes html5 repr_str utcoffset fuel notes submission_title
     = Ok (PyStr.join nl
             (count_header submission_title (length notes)
              ++ ["# Comments and Reviews"; ""])))
  ∧ (∀ n k,
       replyto n = Some k → k ≠ "" →
       (∀ p, p ∈ notes → note_id p ≠ Some k) →
       chosen_root notes ≠ Some n ∧ ¬ reachable notes n).
Proof.
  split_and!.
  - intros P dec Hroot Hreach. rewrite !format_all_notes_body.
    rewrite (thread_body_filter P notes Hroot Hreach).
    destruct (thread_body _ _ _ fuel notes) as [body|]; [|done].
    rewrite !bind_Ok. by exists body.
  - intros Hr.
    by rewrite format_all_notes_body, thread_body_no_root.
  - apply unanswered_unreachable.
Qed.

End unreached.

Lemma format_all_notes_unreached_witness :
  ∃ body,
    format_all_notes Html.html5_xml repr_simple Datetime.utc 2
      (Sample.thread_in_order ++ [Sample.orphan]) "T"
    = Ok (PyStr.join nl (count_header "T" 5 ++ body))
    ∧ format_all_notes Html.html5_xml repr_simple Datetime.utc 2
        Sample.thread_in_order "T"
      = Ok (PyStr.join nl (count_header "T" 4 ++ body)).
Proof.
  set (notes := Sample.thread_in_order ++ [Sample.orphan]).
  pose (P := λ n : Note, note_id n ≠ Some "X").
  assert (∀ r, chosen_root notes = Some r → P r) as Hroot.
  { intros r. vm_compute. by intros [= <-]. }
  assert (∀ n, reachable notes n → P n) as Hreach.
  { intros n Hn Hid.
    assert (n ∈ notes) as Hin.
    { by apply reachable_parent in Hn as (q & _ & _ & ? & _). }
    assert (n = Sample.orphan) as ->.
    { unfold notes, Sample.thread_in_order in Hin. simpl in Hin.
      repeat (apply elem_of_cons in Hin as [->|Hin]; [try done|]).
      by apply elem_of_nil in Hin. }
    revert Hn.
    apply (unanswered_unreachable notes Sample.orphan "missing");
      [done..|].
    intros p Hp. unfold notes, Sample.thread_in_order in Hp. simpl in Hp.
    repeat (apply elem_of_cons in Hp as [->|Hp]; [done|]).
    by apply elem_of_nil in Hp. }
  destruct (format_all_notes_unreached Html.html5_xml repr_simple
              Datetime.utc 2 notes "T") as [H _].
  specialize (H P _ Hroot Hreach).
  change (filter P notes) with Sample.thread_in_order in H.
  clear Hroot Hreach.
  assert (∃ out,
            format_all_notes Html.html5_xml repr_simple Datetime.utc 2
              notes "T" = Ok out)
    as [out E] by (eexists; vm_compute; reflexivity).
  assert (∃ out',
            format_all_notes Html.html5_xml repr_simple Datetime.utc 2
              Sample.thread_in_order "T" = Ok out')
    as [out' E'] by (eexists; vm_compute; reflexivity).
  rewrite E, E' in H. destruct H as (body & Hout & Hout').
  change (length notes) with 5%nat in Hout.
  change (length Sample.thread_in_order) with 4%nat in Hout'.
  exists body. rewrite <- Hout, <- Hout'. exact (conj E E').
Defined.

(** ** Inputs on which the renderers return *)

Lemma Note_ind_replies (P : Note → Prop) :
  (∀ n, Forall P (replies_of n) → P n) → ∀ n, P n.
Proof.
  intros H. fix IH 1. intros n. apply H.
  destruct n as [i s c ct r [[[l|] k]|]]; try constructor.
  unfold replies_of. simpl.
  induction l as [|x l IHl]; constructor; [apply IH|exact IHl].
Qed.

Lemma is_ok_bind {A B} (m : res A) (k : A → res B) :
  is_ok m → (∀ a, m = Ok a → is_ok (k a)) → is_ok (m ≫= k).
Proof. destruct m; [|done]. intros _ Hk. by apply Hk. Qed.

Section returns.
Variable html5 : string → option string.
Variable repr_str : string → string.
Variable utcoffset : Z → Z.

Lemma timestamp_ok_date n fmt unknown :
  timestamp_ok utcoffset n = true → is_ok (date_text utcoffset n fmt unknown).
Proof.
  unfold timestamp_ok, date_text, _get_attr.
  destruct (cdate n) as [c|]; [|done]. unfold_truthy.
  destruct (Z.eqb_spec c 0); [done|]. simpl.
  by destruct (Datetime.fromtimestamp utcoffset c).
Qed.

Lemma for_each_ok {A} (l : list A) body :
  (∀ x, x ∈ l → is_ok (body x)) → is_ok (for_each l body).
Proof.
  intros H. unfold for_each. apply is_ok_bind; [by apply mapM_res_ok|done].
Qed.

Lemma is_scalar_str v :
  is_scalar v = true → is_ok (py_str repr_str v).
Proof.
  destruct v as [|b|z|t nz|s|l|d]; try done.
  cbn [is_scalar py_str py_repr]. unfold PyStr.str_int.
  by destruct (Nat.ltb _ _).
Qed.

Lemma header_ok_returns n level :
  header_ok html5 repr_str utcoffset n = true →
  is_ok (header_and_content html5 repr_str utcoffset n level).
Proof.
  unfold header_ok. intros [Ht Hf]%andb_prop.
  unfold fields_ok in Hf. apply andb_prop in Hf as [Hmain Hother].
  rewrite forallb_forall in Hmain. rewrite forallb_forall in Hother.
  unfold header_and_content. apply is_ok_bind; [by apply timestamp_ok_date|].
  intros date _. unfold _get_attr.
  destruct (truthy (content n)); [|done].
  apply is_ok_bind.
  { specialize (Hother "title" ltac:(by left)).
    destruct (dict_get _ "title") as [field|]; [|done].
    destruct (negb _); [|done].
    destruct (_extract_value _ _ field) as [v|]; [|done].
    rewrite bind_Ok. destruct (truthy v); [|done].
    apply is_ok_bind; [|done]. by apply is_scalar_str. }
  intros title _. apply is_ok_bind.
  - apply for_each_ok. intros f Hf'.
    specialize (Hmain f ltac:(by apply list_elem_of_In)).
    destruct (dict_get _ f) as [field|]; [|done].
    destruct (_extract_value _ _ field) as [v|]; [|done].
    rewrite bind_Ok. destruct (truthy v); [|done]. by destruct v.
  - intros main _. apply is_ok_bind; [|done].
    apply for_each_ok. intros f Hf'.
    assert (f ∈ ["title"; "rating"; "confidence"; "strengths";
                 "weaknesses"; "questions"]) as Hin by by right.
    specialize (Hother f ltac:(by apply list_elem_of_In)).
    destruct (dict_get _ f) as [field|]; [|done].
    destruct (_extract_value _ _ field) as [v|]; [|done].
    rewrite bind_Ok. destruct (truthy v); [|done].
    apply is_ok_bind; [|done]. by apply is_scalar_str.
Qed.

Lemma well_formed_unfold n :
  well_formed html5 repr_str utcoffset n
  = header_ok html5 repr_str utcoffset n
    && forallb (well_formed html5 repr_str utcoffset) (replies_of n).
Proof. by destruct n as [i s c ct r [[[l|] k]|]]. Qed.

Lemma height_unfold n :
  height n = S (foldr (λ r acc, Nat.max (height r) acc) O (replies_of n)).
Proof. by destruct n as [i s c ct r [[[l|] k]|]]. Qed.

Lemma height_reply n r : r ∈ replies_of n → (height r < height n)%nat.
Proof.
  rewrite (height_unfold n). generalize (replies_of n). intros l.
  induction l as [|x l IH]; [by intros ?%elem_of_nil|].
  intros [->|Hr]%elem_of_cons; simpl.
  - lia.
  - specialize (IH Hr). lia.
Qed.

Lemma height_deep_reply n k :
  (S k < height n)%nat → ∃ r, r ∈ replies_of n ∧ (k < height r)%nat.
Proof.
  rewrite (height_unfold n). generalize (replies_of n). intros l.
  induction l as [|x l IH]; simpl; [lia|]. intros Hk.
  destruct (decide (k < height x)%nat) as [Hx|Hx].
  - exists x. split; [left|done].
  - destruct IH as (r & Hr & Hkr); [lia|]. exists r. split; [by right|done].
Qed.

(** [format_note] with its reply summary, along [replies_of] *)
Lemma format_note_replies_of fuel n level :
  format_note html5 repr_str utcoffset (S fuel) n true level
  = lines ← header_and_content html5 repr_str utcoffset n level;
    reply_mds ← mapM (λ reply, format_note html5 repr_str utcoffset fuel
                                 reply true (S level))
                     (replies_of n);
    mret (block level lines (replies_block level reply_mds)).
Proof.
  rewrite format_note_unfold.
  destruct (header_and_content _ _ _ n level) as [lines|]; [|done].
  rewrite !bind_Ok. unfold replies_of.
  destruct (details n) as [[[[|r rs]|] k]|];
    [reflexivity| |by destruct (_ && _)|reflexivity].
  change (true && truthy (Some ?d)) with true. cbv iota.
  change (truthy (r :: rs)) with true. cbv iota.
  destruct (mapM _ (r :: rs)) as [[|md mds]|] eqn:Hm; [|reflexivity..].
  by apply mapM_res_length in Hm.
Qed.

Lemma mapM_res_raise {A B} (f : A → res B) l e :
  (∀ x, x ∈ l → is_ok (f x) ∨ f x = Raise e) →
  (∃ x, x ∈ l ∧ f x = Raise e) →
  mapM f l = Raise e.
Proof.
  induction l as [|x l IH]; intros Hall (y & Hy & Hfy).
  { by apply elem_of_nil in Hy. }
  rewrite mapM_cons.
  destruct (Hall x ltac:(left)) as [Hx|Hx]; [|by rewrite Hx].
  destruct (f x) as [b|] eqn:Hfx; [|done]. rewrite bind_Ok.
  rewrite IH; [done| |].
  - intros z Hz. apply Hall. by right.
  - apply elem_of_cons in Hy as [->|Hy]; [congruence|]. by exists y.
Qed.

Lemma format_note_returns_or_deep fuel n level :
  well_formed html5 repr_str utcoffset n = true →
  ((height n ≤ fuel)%nat →
   ∀ include_replies,
     is_ok (format_note html5 repr_str utcoffset fuel n include_replies
              level))
  ∧ ((fuel < height n)%nat →
     format_note html5 repr_str utcoffset fuel n true level
     = Raise RecursionError).
Proof.
  revert fuel level.
  induction n as [n IH] using Note_ind_replies.
  intros fuel level. rewrite well_formed_unfold.
  intros [Hh Hr]%andb_prop.
  rewrite forallb_forall in Hr. rewrite Forall_forall in IH.
  pose proof (header_ok_returns n level Hh) as Hlines. split.
  - intros Hfuel include_replies.
    destruct fuel as [|fuel]; [rewrite (height_unfold n) in Hfuel; lia|].
    destruct include_replies.
    + rewrite format_note_replies_of.
      apply is_ok_bind; [done|]. intros lines _.
      apply is_ok_bind; [|done]. apply mapM_res_ok. intros x Hx.
      apply IH; [done|by apply Hr, list_elem_of_In|].
      pose proof (height_reply n x Hx). lia.
    + rewrite format_note_no_replies. by apply is_ok_bind.
  - intros Hfuel. destruct fuel as [|fuel]; [done|].
    rewrite format_note_replies_of.
    destruct (header_and_content _ _ _ n level) as [lines|]; [|done].
    rewrite bind_Ok.
    rewrite (mapM_res_raise _ _ RecursionError); [done| |].
    + intros x Hx.
      destruct (IH x Hx fuel (S level)) as [Hok Hdeep].
      { by apply Hr, list_elem_of_In. }
      destruct (decide (height x ≤ fuel)%nat); [left; by apply Hok|].
      right. apply Hdeep. lia.
    + destruct (height_deep_reply n fuel Hfuel) as (r & Hrn & Hk).
      exists r. split; [done|].
      apply IH; [done|by apply Hr, list_elem_of_In|done].
Qed.

Lemma format_note_returns fuel n include_replies level :
  well_formed html5 repr_str utcoffset n = true →
  (height n ≤ fuel)%nat →
  is_ok (format_note html5 repr_str utcoffset fuel n include_replies level).
Proof.
  intros Hn Hfuel. by apply format_note_returns_or_deep.
Qed.

Lemma format_note_to_file_returns fuel n filename :
  well_formed html5 repr_str utcoffset n = true →
  (height n ≤ fuel)%nat →
  is_ok (format_note_to_file html5 repr_str utcoffset fuel n filename).
Proof.
  intros Hn Hfuel. unfold format_note_to_file. apply is_ok_bind.
  - rewrite well_formed_unfold in Hn. apply andb_prop in Hn as [Hh _].
    unfold header_ok in Hh. apply andb_prop in Hh as [Ht _].
    by apply timestamp_ok_date.
  - intros date _. apply is_ok_bind; [|done]. by apply format_note_returns.
Qed.

(** *** The walk ends when the ids are unique *)

Section walk_ends.
Variable notes : list Note.
Hypothesis ids : unique_ids notes.
Hypothesis headers :
  Forall (λ n, header_ok html5 repr_str utcoffset n = true) notes.

Lemma chain_elem path m : chain notes path → m ∈ path → m ∈ notes.
Proof.
  induction 1 as [r Hr _|m' p path _ IH _ Hm']; intros Hm.
  - by apply list_elem_of_singleton in Hm as ->.
  - apply elem_of_cons in Hm as [->|Hm]; [|by apply IH].
    by apply elem_of_children in Hm' as [? _].
Qed.

Lemma chain_parent path m :
  chain notes path → m ∈ path →
  truthy (replyto m) = false
  ∨ ∃ p, p ∈ tail path ∧ p ∈ notes ∧ truthy (note_id p) = true
         ∧ replyto m = Some (default "" (note_id p)).
Proof.
  induction 1 as [r Hr Hroot|m' p path Hc IH Hid Hm']; intros Hm.
  - apply list_elem_of_singleton in Hm as ->. by left.
  - apply elem_of_cons in Hm as [->|Hm].
    + right. exists p. split_and!; [left| |done|].
      * eapply chain_elem; [done|left].
      * by apply elem_of_children in Hm' as [_ [? _]].
    + destruct (IH Hm) as [?|(p' & Hp' & ?)]; [by left|right].
      exists p'. split; [|done]. simpl in *. by right.
Qed.

Lemma truthy_id_eq (a b : Note) :
  truthy (note_id a) = true → truthy (note_id b) = true →
  default "" (note_id a) = default "" (note_id b) → note_id a = note_id b.
Proof.
  destruct (note_id a), (note_id b); simpl; try done. by intros _ _ ->.
Qed.

Lemma chain_fresh n path m :
  chain notes (n :: path) → NoDup (n :: path) →
  truthy (note_id n) = true →
  m ∈ children (reply_index notes) (default "" (note_id n)) →
  m ∉ n :: path.
Proof.
  intros Hc Hnd Hid Hm Hin.
  apply elem_of_children in Hm as [_ [Hm Hne]].
  destruct (chain_parent _ _ Hc Hin) as [Hroot|(p & Hp & Hpn & Hpid & Hmp)].
  - rewrite Hm in Hroot. change (truthy (Some ?k)) with (truthy k) in Hroot.
    apply truthy_string_iff in Hne. congruence.
  - simpl in Hp. rewrite Hm in Hmp. injection Hmp as Hmp.
    assert (n = p) as ->.
    { apply ids; [by eapply chain_elem; [|left]|done..|].
      by apply truthy_id_eq. }
    by apply NoDup_cons_1_1 in Hnd.
Qed.

Lemma chain_length path :
  chain notes path → NoDup path → (length path ≤ length notes)%nat.
Proof.
  intros Hc Hnd. apply submseteq_length, NoDup_submseteq; [done|].
  intros x. by apply chain_elem.
Qed.

Lemma walk_returns fuel n path level :
  chain notes (n :: path) → NoDup (n :: path) →
  (length notes < fuel + length (n :: path))%nat →
  is_ok (_format_note_recursive html5 repr_str utcoffset fuel n
           (reply_index notes) level).
Proof.
  revert n path level.
  induction fuel as [|fuel IH]; intros n path level Hc Hnd Hlen.
  { pose proof (chain_length _ Hc Hnd). lia. }
  rewrite walk_S. apply is_ok_bind.
  { apply header_ok_returns. rewrite Forall_forall in headers.
    apply headers. by eapply chain_elem; [|left]. }
  intros lines _. apply is_ok_bind; [|done].
  destruct (truthy (note_id n)) eqn:Hid; [|done].
  apply mapM_res_ok. intros m Hm.
  apply (IH m (n :: path)).
  - by apply chain_cons.
  - apply NoDup_cons. split; [by apply chain_fresh|done].
  - simpl in *. lia.
Qed.

Lemma format_all_notes_returns fuel title :
  (length notes ≤ fuel)%nat →
  is_ok (format_all_notes html5 repr_str utcoffset fuel notes title).
Proof.
  intros Hlen. rewrite format_all_notes_unfold. unfold top_level.
  destruct (chosen_root notes) as [r|] eqn:Hr; [|done].
  apply chosen_root_spec in Hr as [Hr Hroot].
  apply negb_true_iff in Hroot.
  assert (chain notes [r]) as Hc by by apply chain_root.
  destruct fuel as [|fuel].
  { destruct notes; [by apply elem_of_nil in Hr|simpl in Hlen; lia]. }
  apply is_ok_bind.
  { apply is_ok_bind; [|done]. rewrite format_note_no_replies.
    apply is_ok_bind; [|done]. apply header_ok_returns.
    rewrite Forall_forall in headers. by apply headers. }
  intros main _. apply is_ok_bind; [|done].
  destruct (truthy (note_id r)) eqn:Hid; [|done].
  apply mapM_res_ok. intros t Ht. apply (walk_returns (S fuel) t [r]).
  - by apply chain_cons.
  - apply NoDup_cons. split; [|apply NoDup_singleton].
    apply chain_fresh; [done|apply NoDup_singleton|done..].
  - simpl. lia.
Qed.

End walk_ends.

Lemma NoDup_unique_ids (notes : list Note) :
  NoDup (note_id <$> notes) → unique_ids notes.
Proof.
  intros Hnd a b Ha Hb _ Hab.
  induction notes as [|n notes IH]; [by apply elem_of_nil in Ha|].
  rewrite fmap_cons in Hnd. apply NoDup_cons in Hnd as [Hn Hnd].
  apply elem_of_cons in Ha as [->|Ha], Hb as [->|Hb]; [done| | |by apply IH].
  - destruct Hn. rewrite Hab. by apply list_elem_of_fmap_2.
  - destruct Hn. rewrite <- Hab. by apply list_elem_of_fmap_2.
Qed.

Lemma format_note_header fuel note include_replies level md :
  format_note html5 repr_str utcoffset fuel note include_replies level
  = Ok md →
  ∃ date rest,
    date_text utcoffset note "%Y-%m-%d %H:%M:%S" "Unknown date" = Ok date
    ∧ md = PyStr.join nl
        ([PyStr.repeat "  " level +:+ "## Comment by "
            +:+ signatures_text note;
          PyStr.repeat "  " level +:+ "**Date:** " +:+ date;
          ""] ++ rest).
Proof.
  destruct fuel as [|fuel]; [done|]. rewrite format_note_unfold.
  destruct (header_and_content _ _ _ note level) as [lines|] eqn:Hh; [|done].
  rewrite bind_Ok. destruct (if _ && _ then _ else _) as [rl|]; [|done].
  intros [= <-]. unfold header_and_content in Hh.
  destruct (date_text _ _ _ _) as [date|]; [|done]. rewrite bind_Ok in Hh.
  exists date. destruct (truthy (_get_attr note content)).
  - destruct (match dict_get _ "title" with Some _ => _ | None => _ end)
      as [title|]; [|done].
    rewrite bind_Ok in Hh.
    destruct (for_each ("comment" :: _) _) as [main|]; [|done].
    rewrite bind_Ok in Hh.
    destruct (for_each _ _) as [other|]; [|done].
    injection Hh as <-.
    eexists. split; [done|]. reflexivity.
  - injection Hh as <-. eexists. split; [done|]. reflexivity.
Qed.

(** X1.  A note is fine when its timestamp is missing, zero or in the
    range [datetime.fromtimestamp] converts, and the extraction of each
    field it has among the ten the renderers look up returns: a string or
    a falsy value for "comment", "review", "summary" and "response"; a
    falsy value, a string, [None], a truth value, a float or an integer
    of at most 4300 digits for "title" and the five other fields.
    [format_note] and [format_note_to_file] return on a note that is fine
    together with the notes of its reply summaries, when the recursion
    budget covers the height of the summaries; with its reply summary
    and a smaller budget [format_note] raises RecursionError on such a
    note.  [format_all_notes] returns on a list of fine notes with unique
    ids, given a recursion budget of the length of the list.  A render
    that returns starts with the header line, the date line and a blank
    line, with "Anonymous" for signatures that are missing or empty and
    "Unknown date" for a timestamp that is missing or zero. *)
Theorem renderers_return :
  (∀ fuel note include_replies level filename,
     well_formed html5 repr_str utcoffset note = true →
     (height note ≤ fuel)%nat →
     is_ok (format_note html5 repr_str utcoffset fuel note include_replies
              level)
     ∧ is_ok (format_note_to_file html5 repr_str utcoffset fuel note
                filename))
  ∧ (∀ fuel note level,
       well_formed html5 repr_str utcoffset note = true →
       (fuel < height note)%nat →
       format_note html5 repr_str utcoffset fuel note true level
       = Raise RecursionError)
  ∧ (∀ notes fuel submission_title,
       Forall (λ n, header_ok html5 repr_str utcoffset n = true) notes →
       unique_ids notes →
       (length notes ≤ fuel)%nat →
       is_ok (format_all_notes html5 repr_str utcoffset fuel notes
                submission_title))
  ∧ (∀ fuel note include_replies level md,
       format_note html5 repr_str utcoffset fuel note include_replies level
       = Ok md →
       ∃ date rest,
         md = PyStr.join nl
                ([PyStr.repeat "  " level +:+ "## Comment by "
                    +:+ signatures_text note;
                  PyStr.repeat "  " level +:+ "**Date:** " +:+ date;
                  ""] ++ rest)
         ∧ (truthy (signatures note) = false →
            signatures_text note = "Anonymous")
         ∧ (truthy (cdate note) = false → date = "Unknown date")).
Proof.
  split_and!.
  - intros fuel note include_replies level filename Hn Hfuel. split.
    + by apply format_note_returns.
    + by apply format_note_to_file_returns.
  - intros fuel note level Hn Hfuel.
    by apply format_note_returns_or_deep.
  - intros notes fuel title Hh Hids Hlen.
    by apply format_all_notes_returns.
  - intros fuel note include_replies level md Hmd.
    apply format_note_header in Hmd as (date & rest & Hd & ->).
    exists date, rest. split_and!; [done| |].
    + intros Hs. unfold signatures_text, _get_attr. by rewrite Hs.
    + intros Hc. unfold date_text, _get_attr in Hd. rewrite Hc in Hd.
      by injection Hd.
Qed.

End returns.

Lemma renderers_return_witness :
  is_ok (format_note Html.html5_xml repr_simple Datetime.utc 2
           Sample.malformed true 0)
  ∧ is_ok (format_note_to_file Html.html5_xml repr_simple Datetime.utc 2
             Sample.malformed "")
  ∧ format_note Html.html5_xml repr_simple Datetime.utc 1
      Sample.malformed true 0 = Raise RecursionError
  ∧ is_ok (format_all_notes Html.html5_xml repr_simple Datetime.utc 6
             (Sample.thread_in_order ++ [Sample.malformed; Sample.bare])
             "T")
  ∧ format_note Html.html5_xml repr_simple Datetime.utc 1 Sample.malformed
      false 0
    = Ok (PyStr.join nl
            ["## Comment by Anonymous"; "**Date:** Unknown date"; "";
             "---"; ""]).
Proof.
  destruct (renderers_return Html.html5_xml repr_simple Datetime.utc)
    as (Hnote & Hdeep & Hall & _).
  split_and!.
  - apply (Hnote 2%nat Sample.malformed true 0%nat "");
      [reflexivity|simpl; lia].
  - apply (Hnote 2%nat Sample.malformed true 0%nat "");
      [reflexivity|simpl; lia].
  - apply Hdeep; [reflexivity|simpl; lia].
  - apply Hall; [repeat constructor| |simpl; lia].
    apply NoDup_unique_ids. by_decide.
  - reflexivity.
Defined.

(** Outside these conditions a render can end in an exception: for a
    timestamp past the year 9999, for a text field whose wrapped value
    is a number, and for a field with a decimal reference of more than
    4300 digits; below a budget of 1000 calls, for reply summaries
    nested 1000 deep. *)
Lemma renderers_raise :
  format_note Html.html5_xml repr_simple Datetime.utc 1000
    Sample.far_future true 0 = Raise ValueError
  ∧ format_note Html.html5_xml repr_simple Datetime.utc 1000
      Sample.numeric_comment true 0 = Raise AttributeError
  ∧ format_note Html.html5_xml repr_simple Datetime.utc 1000
      Sample.long_reference true 0 = Raise ValueError
  ∧ format_note Html.html5_xml repr_simple Datetime.utc 1000
      (Sample.nested 1000) true 0 = Raise RecursionError.
Proof. split_and!; vm_compute; reflexivity. Qed.

(** Two notes with one id, one the reply of the other: the walk does not
    end, whatever the budget. *)
Lemma format_all_notes_shared_id fuel :
  format_all_notes Html.html5_xml repr_simple Datetime.utc fuel
    [Sample.root; Sample.echo] "T" = Raise RecursionError.
Proof.
  rewrite format_all_notes_unfold.
  destruct fuel as [|fuel]; [reflexivity|].
  assert (children (reply_index [Sample.root; Sample.echo]) "S"
          = [Sample.echo]) as Hc.
  { rewrite children_reply_index. reflexivity. }
  assert (∀ fuel level,
            _format_note_recursive Html.html5_xml repr_simple Datetime.utc
              fuel Sample.echo (reply_index [Sample.root; Sample.echo]) level
            = Raise RecursionError) as Hw.
  { clear fuel. intros fuel.
    induction fuel as [|fuel IH]; intros level; [done|].
    rewrite walk_S.
    change (header_and_content _ _ _ Sample.echo level)
      with (Ok [PyStr.repeat "  " level +:+ "## Comment by Anonymous";
                PyStr.repeat "  " level +:+ "**Date:** Unknown date"; ""]).
    rewrite bind_Ok.
    change (default "" (note_id Sample.echo)) with "S".
    change (truthy (note_id Sample.echo)) with true. cbv iota.
    by rewrite Hc, mapM_cons, IH. }
  unfold top_level.
  change (chosen_root [Sample.root; Sample.echo]) with (Some Sample.root).
  cbv iota beta.
  rewrite format_note_no_replies.
  change (header_and_content _ _ _ Sample.root 0)
    with (Ok ["## Comment by Anonymous"; "**Date:** Unknown date"; ""]).
  rewrite !bind_Ok.
  change (default "" (note_id Sample.root)) with "S".
  change (truthy (note_id Sample.root)) with true. cbv iota.
  by rewrite Hc, mapM_cons, Hw.
Qed.

(** ** The recursion budget *)

Section budget.
Variable html5 : string → option string.
Variable repr_str : string → string.
Variable utcoffset : Z → Z.

Lemma mapM_res_stable {A B} (f g : A → res B) l r :
  mapM f l = r → r ≠ Raise RecursionError →
  (∀ x rx, x ∈ l → f x = rx → rx ≠ Raise RecursionError → g x = rx) →
  mapM g l = r.
Proof.
  revert r. induction l as [|x l IH]; intros r Hr Hne Hfg; [done|].
  rewrite mapM_cons in Hr |- *.
  destruct (f x) as [y|e] eqn:Hx.
  - assert (g x = Ok y) as -> by (apply Hfg; [left|done..]).
    rewrite bind_Ok in Hr |- *.
    destruct (mapM f l) as [k|e] eqn:Hl.
    + assert (mapM g l = Ok k) as ->; [|done].
      apply IH; [done..|]. intros. apply Hfg; [by right|done..].
    + assert (mapM g l = Raise e) as ->; [|done].
      apply IH; [done|subst r; exact Hne|].
      intros. apply Hfg; [by right|done..].
  - assert (g x = Raise e) as ->; [|done].
    apply Hfg; [left|done|]. subst r. intros [= ->]. by apply Hne.
Qed.

Lemma walk_budget fuel fuel' n cm level r :
  _format_note_recursive html5 repr_str utcoffset fuel n cm level = r →
  r ≠ Raise RecursionError → (fuel ≤ fuel')%nat →
  _format_note_recursive html5 repr_str utcoffset fuel' n cm level = r.
Proof.
  revert fuel' n level r.
  induction fuel as [|fuel IH]; intros fuel' n level r Hr Hne Hle.
  { by subst r. }
  destruct fuel' as [|fuel']; [lia|]. rewrite walk_S in *.
  destruct (header_and_content _ _ _ n level) as [lines|]; [|done].
  rewrite bind_Ok in *.
  destruct (mapM _ _) as [mds|e] eqn:Hm in Hr.
  - eapply mapM_res_stable in Hm as ->; [done..|].
    intros x rx _ Hx Hrx. apply (IH fuel'); [done..|lia].
  - eapply mapM_res_stable in Hm as ->; [done| |].
    + subst r. intros [= ->]. by apply Hne.
    + intros x rx _ Hx Hrx. apply (IH fuel'); [done..|lia].
Qed.

Lemma format_note_budget fuel fuel' n include_replies level r :
  format_note html5 repr_str utcoffset fuel n include_replies level = r →
  r ≠ Raise RecursionError → (fuel ≤ fuel')%nat →
  format_note html5 repr_str utcoffset fuel' n include_replies level = r.
Proof.
  revert fuel' n include_replies level r.
  induction fuel as [|fuel IH];
    intros fuel' n include_replies level r Hr Hne Hle.
  { by subst r. }
  destruct fuel' as [|fuel']; [lia|]. rewrite format_note_unfold in *.
  destruct (header_and_content _ _ _ n level) as [lines|]; [|done].
  rewrite bind_Ok in *.
  destruct (include_replies && truthy (details n)); [|done].
  destruct (details n) as [[[replies|] k]|]; [|done..].
  destruct (truthy replies); [|done].
  destruct (mapM _ _) as [mds|e] eqn:Hm in Hr.
  - eapply mapM_res_stable in Hm as ->; [done..|].
    intros x rx _ Hx Hrx. apply (IH fuel'); [done..|lia].
  - eapply mapM_res_stable in Hm as ->; [done| |].
    + subst r. intros [= ->]. by apply Hne.
    + intros x rx _ Hx Hrx. apply (IH fuel'); [done..|lia].
Qed.

(** X2.  The recursion budget decides only whether the walk ends in
    RecursionError: whatever else [format_all_notes] gives with some
    budget, a document or another exception, it gives with every larger
    budget. *)
Theorem format_all_notes_budget (fuel fuel' : nat) (notes : list Note)
    (submission_title : string) (r : res string) :
  format_all_notes html5 repr_str utcoffset fuel notes submission_title = r →
  r ≠ Raise RecursionError →
  (fuel ≤ fuel')%nat →
  format_all_notes html5 repr_str utcoffset fuel' notes submission_title = r.
Proof.
  intros Hr Hne Hle. rewrite format_all_notes_unfold in *.
  assert (∀ (m : option Note) main,
            match m with
            | Some main_submission =>
                md ← format_note html5 repr_str utcoffset fuel
                       main_submission false 0;
                mret ["# Main Submission"; ""; md; ""]
            | None => mret []
            end = main →
            main ≠ Raise RecursionError →
            match m with
            | Some main_submission =>
                md ← format_note html5 repr_str utcoffset fuel'
                       main_submission false 0;
                mret ["# Main Submission"; ""; md; ""]
            | None => mret []
            end = main) as Hmain.
  { intros [m|] main Hm Hmne; [|done].
    destruct (format_note _ _ _ fuel m false 0) as [md|e] eqn:Hmd.
    - by rewrite (format_note_budget fuel fuel' _ _ _ _ Hmd).
    - rewrite (format_note_budget fuel fuel' _ _ _ _ Hmd); [done| |done].
      subst main. intros [= ->]. by apply Hmne. }
  destruct (match chosen_root notes with Some _ => _ | None => _ end)
    as [main|e] eqn:Hm in Hr.
  2:{ rewrite (Hmain _ _ Hm); [done|]. subst r. intros [= ->].
      by apply Hne. }
  rewrite (Hmain _ _ Hm) by done. clear Hm Hmain.
  rewrite bind_Ok in *.
  destruct (mapM _ _) as [mds|e] eqn:Hm in Hr.
  - eapply mapM_res_stable in Hm as ->; [done..|].
    intros x rx _ Hx Hrx. by apply (walk_budget fuel).
  - eapply mapM_res_stable in Hm as ->; [done| |].
    + subst r. intros [= ->]. by apply Hne.
    + intros x rx _ Hx Hrx. by apply (walk_budget fuel).
Qed.

End budget.

Lemma format_all_notes_budget_witness :
  ∃ out,
    format_all_notes Html.html5_xml repr_simple Datetime.utc 2
      Sample.thread "T" = Ok out
    ∧ format_all_notes Html.html5_xml repr_simple Datetime.utc 1000
        Sample.thread "T" = Ok out.
Proof.
  eexists. split; [vm_compute; reflexivity|].
  apply (format_all_notes_budget _ _ _ 2); [vm_compute; reflexivity|done|lia].
Defined.

(** ** Reply cycles *)

Section cycles.
Variable html5 : string → option string.
Variable repr_str : string → string.
Variable utcoffset : Z → Z.

Lemma mapM_res_elem {A B} (f : A → res B) l k x :
  mapM f l = Ok k → x ∈ l → ∃ y, f x = Ok y ∧ y ∈ k.
Proof.
  revert k. induction l as [|a l IH]; intros k Hk Hx.
  { by apply elem_of_nil in Hx. }
  rewrite mapM_cons in Hk. destruct (f a) as [b|] eqn:Ha; [|done].
  rewrite bind_Ok in Hk. destruct (mapM f l) as [k'|]; [|done].
  injection Hk as <-. apply elem_of_cons in Hx as [->|Hx].
  - exists b. split; [done|left].
  - destruct (IH k' eq_refl Hx) as (y & ? & ?). exists y. split; [done|by right].
Qed.

Lemma descends_snoc cm p q m :
  descends cm p q → truthy (note_id q) = true →
  m ∈ children cm (default "" (note_id q)) → descends cm p m.
Proof.
  induction 1 as [p q Hid Hq|p p' q Hid Hp' _ IH]; intros Hqid Hm.
  - eapply descends_step; [done..|]. by apply descends_child.
  - eapply descends_step; [done..|]. by apply IH.
Qed.

(** the walk of a note returns only if the walk of each of its replies
    returns with one call less *)
Lemma walk_reply fuel n cm level md m :
  _format_note_recursive html5 repr_str utcoffset (S fuel) n cm level
  = Ok md →
  truthy (note_id n) = true →
  m ∈ children cm (default "" (note_id n)) →
  ∃ md', _format_note_recursive html5 repr_str utcoffset fuel m cm (S level)
         = Ok md'.
Proof.
  rewrite walk_S. intros Hmd Hid Hm.
  destruct (header_and_content _ _ _ n level); [|done].
  rewrite bind_Ok, Hid in Hmd.
  destruct (mapM _ _) as [mds|] eqn:Hmds; [|done].
  destruct (mapM_res_elem _ _ _ _ Hmds Hm) as (md' & ? & _). by exists md'.
Qed.

Lemma walk_cycle fuel n cm level :
  descends cm n n →
  ¬ is_ok (_format_note_recursive html5 repr_str utcoffset fuel n cm level).
Proof.
  revert n level.
  induction fuel as [|fuel IH]; intros n level Hn; [exact id|].
  destruct (_format_note_recursive _ _ _ (S fuel) n cm level)
    as [md|] eqn:Hmd; [|exact id].
  intros _. inversion Hn as [p m Hid Hm|p q m Hid Hq Hqn]; subst.
  - destruct (walk_reply _ _ _ _ _ _ Hmd Hid Hm) as [md' Hmd'].
    apply (IH n (S level) Hn). by rewrite Hmd'.
  - destruct (walk_reply _ _ _ _ _ _ Hmd Hid Hq) as [md' Hmd'].
    apply (IH q (S level)); [|by rewrite Hmd'].
    by eapply descends_snoc.
Qed.

Lemma walk_descends fuel n cm level md m :
  _format_note_recursive html5 repr_str utcoffset fuel n cm level = Ok md →
  descends cm n m →
  ∃ fuel' level' md',
    _format_note_recursive html5 repr_str utcoffset fuel' m cm level'
    = Ok md'.
Proof.
  intros Hmd Hd. revert fuel level md Hmd.
  induction Hd as [p m Hid Hm|p q m Hid Hq _ IH]; intros fuel level md Hmd.
  - destruct fuel as [|fuel]; [done|].
    destruct (walk_reply _ _ _ _ _ _ Hmd Hid Hm) as [md' ?]. by eauto.
  - destruct fuel as [|fuel]; [done|].
    destruct (walk_reply _ _ _ _ _ _ Hmd Hid Hq) as [md' ?]. by eauto.
Qed.

(** X3.  When a note that the walk reaches is a reply to itself along
    the index (a reply, a reply to a reply, ... of itself), which takes
    two notes with one id, [format_all_notes] returns no document,
    whatever the recursion budget. *)
Theorem format_all_notes_cycle (fuel : nat) (notes : list Note)
    (submission_title : string) (n : Note) :
  reachable notes n →
  descends (reply_index notes) n n →
  ¬ is_ok (format_all_notes html5 repr_str utcoffset fuel notes
             submission_title).
Proof.
  intros (r & Hr & Hrn) Hn. rewrite format_all_notes_unfold.
  destruct (match chosen_root notes with Some _ => _ | None => _ end)
    as [main|]; [|exact id].
  rewrite bind_Ok. destruct (mapM _ _) as [mds|] eqn:Hmds; [|exact id].
  intros _. unfold top_level in Hmds. rewrite Hr in Hmds.
  assert (∃ fuel' level' md',
            _format_note_recursive html5 repr_str utcoffset fuel' n
              (reply_index notes) level' = Ok md') as (f & l & md & Hmd).
  { inversion Hrn as [p m Hid Hm|p q m Hid Hq Hqn]; subst.
    - rewrite Hid in Hmds.
      destruct (mapM_res_elem _ _ _ _ Hmds Hm) as (md & ? & _). by eauto.
    - rewrite Hid in Hmds.
      destruct (mapM_res_elem _ _ _ _ Hmds Hq) as (md & Hmd & _).
      by eapply walk_descends. }
  apply (walk_cycle f n (reply_index notes) l Hn). by rewrite Hmd.
Qed.

End cycles.

Lemma format_all_notes_cycle_witness :
  reachable [Sample.root; Sample.echo] Sample.echo
  ∧ descends (reply_index [Sample.root; Sample.echo]) Sample.echo Sample.echo
  ∧ ¬ is_ok (format_all_notes Html.html5_xml repr_simple Datetime.utc 1000
               [Sample.root; Sample.echo] "T").
Proof.
  assert (Sample.echo
          ∈ children (reply_index [Sample.root; Sample.echo]) "S") as Hc.
  { rewrite children_reply_index. left. }
  assert (reachable [Sample.root; Sample.echo] Sample.echo) as Hr.
  { exists Sample.root. split; [reflexivity|]. by apply descends_child. }
  assert (descends (reply_index [Sample.root; Sample.echo])
            Sample.echo Sample.echo) as Hd.
  { by apply descends_child. }
  split_and!; [done..|].
  by apply (format_all_notes_cycle _ _ _ _ _ _ Sample.echo).
Defined.

(** ** The order of the input and the choice of the main submission *)

Lemma NoDup_fmap_inj {A B} (f : A → B) (l : list A) a b :
  NoDup (f <$> l) → a ∈ l → b ∈ l → f a = f b → a = b.
Proof.
  intros Hnd Ha Hb Hab.
  induction l as [|x l IH]; [by apply elem_of_nil in Ha|].
  rewrite fmap_cons in Hnd. apply NoDup_cons in Hnd as [Hx Hnd].
  apply elem_of_cons in Ha as [->|Ha], Hb as [->|Hb]; [done| | |by apply IH].
  - destruct Hx. rewrite Hab. by apply list_elem_of_fmap_2.
  - destruct Hx. rewrite <- Hab. by apply list_elem_of_fmap_2.
Qed.

Lemma sorted_perm_eq {A} (key : A → Z) (l l' : list A) :
  l ≡ₚ l' →
  (∀ a b, a ∈ l → b ∈ l → key a = key b → a = b) →
  sorted key l = sorted key l'.
Proof.
  intros Hp Hinj.
  apply (StronglySorted_unique_strong (key_le key)).
  - intros a b Ha Hb Hab Hba. apply Hinj.
    + by apply elem_of_sorted in Ha.
    + apply elem_of_sorted in Hb. by rewrite Hp.
    + unfold key_le in *. lia.
  - apply sorted_StronglySorted.
  - apply sorted_StronglySorted.
  - by rewrite !sorted_perm.
Qed.

Section order.
Variable html5 : string → option string.
Variable repr_str : string → string.
Variable utcoffset : Z → Z.

(** X4.  [format_all_notes] gives the same result for every order of the
    same notes, as long as different notes have different sort keys (the
    timestamp, 0 when it is missing or zero). *)
Theorem format_all_notes_order (fuel : nat) (notes notes' : list Note)
    (submission_title : string) :
  notes ≡ₚ notes' →
  (∀ a b, a ∈ notes → b ∈ notes → cdate_key a = cdate_key b → a = b) →
  format_all_notes html5 repr_str utcoffset fuel notes submission_title
  = format_all_notes html5 repr_str utcoffset fuel notes' submission_title.
Proof.
  intros Hp Hinj.
  rewrite (format_all_notes_sorted _ _ _ _ notes).
  rewrite (format_all_notes_sorted _ _ _ _ notes').
  by rewrite (sorted_perm_eq cdate_key notes notes').
Qed.

(** X5.  A document that [format_all_notes] returns has a main
    submission section exactly when some note has no parent; the note
    rendered there, without its reply summary and at depth 0, is the
    note without a parent that was created first (a missing creation
    time counted as 0), and of several created at that time the one the
    input has first.  When every note has a parent the document is the
    opening lines and the empty comments section. *)
Theorem format_all_notes_main_submission (fuel : nat) (notes : list Note)
    (submission_title out : string) :
  format_all_notes html5 repr_str utcoffset fuel notes submission_title
  = Ok out →
  (∃ r md rest l1 l2,
     r ∈ notes ∧ truthy (replyto r) = false
     ∧ (∀ n, n ∈ notes → truthy (replyto n) = false →
             created r ≤ created n)
     ∧ notes = l1 ++ r :: l2
     ∧ (∀ n, n ∈ l1 → truthy (replyto n) = false → created r < created n)
     ∧ format_note html5 repr_str utcoffset fuel r false 0 = Ok md
     ∧ out = PyStr.join nl
               (count_header submission_title (length notes)
                ++ ["# Main Submission"; ""; md; "";
                    "# Comments and Reviews"; ""] ++ rest))
  ∨ ((∀ n, n ∈ notes → truthy (replyto n) = true)
     ∧ out = PyStr.join nl
               (count_header submission_title (length notes)
                ++ ["# Comments and Reviews"; ""])).
Proof.
  rewrite format_all_notes_unfold. unfold top_level.
  destruct (chosen_root notes) as [r|] eqn:Hr.
  - intros Hout. left.
    destruct (format_note _ _ _ fuel r false 0) as [md|] eqn:Hmd; [|done].
    rewrite !bind_Ok in Hout.
    destruct (mapM _ _) as [mds|]; [|done]. injection Hout as <-.
    pose proof (chosen_root_spec _ _ Hr) as [Hin Hroot].
    unfold chosen_root in Hr.
    rewrite (sorted_ext cdate_key created) in Hr by apply cdate_key_created.
    destruct (find_sorted_first created is_root notes r Hr)
      as (l1 & l2 & Hsplit & H1 & H2).
    exists r, md, mds, l1, l2.
    assert (∀ n, truthy (replyto n) = false → is_root n = true) as Hp.
    { intros n Hn. unfold is_root. by rewrite Hn. }
    split_and!; [done|by apply negb_true_iff in Hroot| |done| |done|done].
    + intros n Hn Hpn.
      apply (find_sorted_least created is_root (sorted created notes));
        [apply sorted_StronglySorted|done|by apply elem_of_sorted|].
      by apply Hp.
    + intros n Hn Hpn. apply H1; [done|by apply Hp].
  - intros [= <-]. right. split; [|done].
    intros n Hn. unfold chosen_root in Hr.
    assert (In n (sorted cdate_key notes)) as Hin.
    { by apply list_elem_of_In, elem_of_sorted. }
    apply (find_none _ _ Hr) in Hin. by apply negb_false_iff in Hin.
Qed.

End order.

Lemma format_all_notes_order_witness :
  format_all_notes Html.html5_xml repr_simple Datetime.utc 2
    Sample.thread_in_order "T"
  = format_all_notes Html.html5_xml repr_simple Datetime.utc 2
      Sample.thread "T".
Proof.
  apply format_all_notes_order.
  - symmetry. apply reverse_Permutation.
  - intros a b. apply NoDup_fmap_inj. by_decide.
Defined.

Lemma format_all_notes_main_submission_witness :
  ∃ out,
    format_all_notes Html.html5_xml repr_simple Datetime.utc 2
      (Sample.late_root :: Sample.thread) "T" = Ok out
    ∧ ∃ md rest,
        format_note Html.html5_xml repr_simple Datetime.utc 2
          (Sample.S_ (Some ["Authors"])
             (Some [("title", Sample.wrapped "Paper")])) false 0 = Ok md
        ∧ out = PyStr.join nl
                  (count_header "T" 5
                   ++ ["# Main Submission"; ""; md; "";
                       "# Comments and Reviews"; ""] ++ rest).
Proof.
  assert (∃ out,
            format_all_notes Html.html5_xml repr_simple Datetime.utc 2
              (Sample.late_root :: Sample.thread) "T" = Ok out)
    as [out Hout] by (eexists; vm_compute; reflexivity).
  exists out. split; [exact Hout|].
  assert (Sample.S_ (Some ["Authors"])
            (Some [("title", Sample.wrapped "Paper")])
          ∈ Sample.late_root :: Sample.thread) as HS.
  { right. apply elem_of_reverse. left. }
  destruct (format_all_notes_main_submission Html.html5_xml repr_simple
              Datetime.utc 2 (Sample.late_root :: Sample.thread) "T" out Hout)
    as [(r & md & rest & l1 & l2 & Hr & Hroot & Hleast & _ & _ & Hmd & Hmain)
       |[Hall _]].
  - assert (r = Sample.S_ (Some ["Authors"])
                  (Some [("title", Sample.wrapped "Paper")])) as ->.
    { specialize (Hleast _ HS eq_refl). clear -Hr Hroot Hleast.
      unfold Sample.thread, Sample.thread_in_order in Hr.
      vm_compute reverse in Hr.
      repeat (apply elem_of_cons in Hr as [->|Hr]; [done|]).
      by apply elem_of_nil in Hr. }
    exists md, rest. exact (conj Hmd Hmain).
  - exfalso. by specialize (Hall _ HS).
Defined.

(** ** The keys of a content *)

Section content_keys.
Variable html5 : string → option string.
Variable repr_str : string → string.
Variable utcoffset : Z → Z.

(** a content that is missing or empty renders as one that holds a key
    the renderers do not look up *)
Lemma header_and_content_padded n level :
  header_and_content html5 repr_str utcoffset n level
  = header_and_content html5 repr_str utcoffset
      (with_content n (Some (("", PNone) :: default [] (content n)))) level.
Proof.
  unfold header_and_content.
  change (date_text utcoffset (with_content n ?c))
    with (date_text utcoffset n).
  destruct (date_text _ _ _ _) as [date|]; [|done].
  by destruct n as [i s c [[|kv d]|] r dt].
Qed.

Lemma header_and_content_lookups n d d' level :
  (∀ k, k ∈ known_keys → dict_get d k = dict_get d' k) →
  header_and_content html5 repr_str utcoffset
    (with_content n (Some (("", PNone) :: d))) level
  = header_and_content html5 repr_str utcoffset
      (with_content n (Some (("", PNone) :: d'))) level.
Proof.
  intros Hk. unfold header_and_content, _get_attr.
  change (date_text utcoffset (with_content n ?c))
    with (date_text utcoffset n).
  change (signatures_text (with_content n ?c)) with (signatures_text n).
  destruct (date_text _ _ _ _) as [date|]; [|done]. rewrite !bind_Ok.
  cbn [content with_content default from_option id].
  change (truthy (Some (?kv :: ?l))) with true. cbv iota.
  unfold for_each. rewrite !mapM_cons, !mapM_nil.
  change (dict_get (("", PNone) :: ?l) ?k) with (dict_get l k).
  rewrite !(Hk "title") by by_decide.
  rewrite !(Hk "comment") by by_decide.
  rewrite !(Hk "review") by by_decide.
  rewrite !(Hk "summary") by by_decide.
  rewrite !(Hk "response") by by_decide.
  rewrite !(Hk "rating") by by_decide.
  rewrite !(Hk "confidence") by by_decide.
  rewrite !(Hk "strengths") by by_decide.
  rewrite !(Hk "weaknesses") by by_decide.
  rewrite !(Hk "questions") by by_decide.
  reflexivity.
Qed.

Lemma header_and_content_known_keys n c level :
  (∀ k, k ∈ known_keys →
        dict_get (default [] c) k = dict_get (default [] (content n)) k) →
  header_and_content html5 repr_str utcoffset (with_content n c) level
  = header_and_content html5 repr_str utcoffset n level.
Proof.
  intros Hk.
  rewrite (header_and_content_padded n).
  rewrite (header_and_content_padded (with_content n c)).
  by apply (header_and_content_lookups n).
Qed.

(** X6.  The renderers read a content through ten keys only ("title",
    "comment", "review", "summary", "response", "rating", "confidence",
    "strengths", "weaknesses", "questions"): a note renders the same
    with any other content that agrees on these keys, so every other
    key of a content, and the order of its keys, is ignored; a content
    that is missing or empty renders as one without any of them. *)
Theorem render_reads_known_keys (note : Note)
    (c : option (list (string * PyVal))) :
  (∀ k, k ∈ known_keys →
        dict_get (default [] c) k = dict_get (default [] (content note)) k) →
  (∀ fuel include_replies level,
     format_note html5 repr_str utcoffset fuel (with_content note c)
       include_replies level
     = format_note html5 repr_str utcoffset fuel note include_replies level)
  ∧ (∀ fuel children_map level,
       _format_note_recursive html5 repr_str utcoffset fuel
         (with_content note c) children_map level
       = _format_note_recursive html5 repr_str utcoffset fuel note
           children_map level).
Proof.
  intros Hk. split.
  - intros [|fuel] include_replies level; [done|].
    by rewrite !format_note_unfold, header_and_content_known_keys.
  - intros [|fuel] children_map level; [done|].
    by rewrite !walk_S, header_and_content_known_keys.
Qed.

End content_keys.

Lemma render_reads_known_keys_witness :
  format_note Html.html5_xml repr_simple Datetime.utc 1
    (with_content Sample.reviewer_abc
       (Some [("decision", Sample.wrapped "Accept");
              ("comment", Sample.wrapped "Test comment")])) true 0
  = format_note Html.html5_xml repr_simple Datetime.utc 1
      Sample.reviewer_abc true 0.
Proof.
  refine (proj1 (render_reads_known_keys Html.html5_xml repr_simple
                   Datetime.utc Sample.reviewer_abc
                   (Some [("decision", Sample.wrapped "Accept");
                          ("comment", Sample.wrapped "Test comment")]) _)
                1%nat true 0%nat).
  intros k Hk. unfold known_keys in Hk.
  repeat (apply elem_of_cons in Hk as [->|Hk]; [reflexivity|]).
  by apply elem_of_nil in Hk.
Defined.

(** ** Every note the walk reaches is in the document *)

Lemma string_app_assoc (a b c : string) : (a +:+ b) +:+ c = a +:+ b +:+ c.
Proof.
  induction a as [|x a IH]; [done|].
  change (String x ((a +:+ b) +:+ c) = String x (a +:+ b +:+ c)).
  by rewrite IH.
Qed.

Lemma string_app_nil_r (a : string) : a +:+ "" = a.
Proof.
  induction a as [|x a IH]; [done|].
  change (String x (a +:+ "") = String x a). by rewrite IH.
Qed.

Lemma Ok_inj {A} (a b : A) : Ok a = Ok b → a = b.
Proof. by intros [= ->]. Qed.

Lemma occurs_refl s : occurs s s.
Proof. exists "", "". by rewrite string_app_nil_r. Qed.

Lemma occurs_trans x y z : occurs x y → occurs y z → occurs x z.
Proof.
  intros (a & b & ->) (c & d & ->). exists (c +:+ a), (b +:+ d).
  by rewrite !string_app_assoc.
Qed.

Lemma join_cons sep x l :
  l ≠ [] → PyStr.join sep (x :: l) = x +:+ sep +:+ PyStr.join sep l.
Proof. by destruct l. Qed.

Lemma occurs_join sep x l : x ∈ l → occurs x (PyStr.join sep l).
Proof.
  induction l as [|y l IH]; intros Hx; [by apply elem_of_nil in Hx|].
  destruct l as [|z l].
  { apply list_elem_of_singleton in Hx as ->. apply occurs_refl. }
  rewrite join_cons by done. apply elem_of_cons in Hx as [->|Hx].
  - exists "", (sep +:+ PyStr.join sep (z :: l)). done.
  - destruct (IH Hx) as (a & b & ->).
    exists (y +:+ sep +:+ a), b. by rewrite !string_app_assoc.
Qed.

Section reached.
Variable html5 : string → option string.
Variable repr_str : string → string.
Variable utcoffset : Z → Z.

Lemma header_and_content_head n level lines :
  header_and_content html5 repr_str utcoffset n level = Ok lines →
  ∃ date rest,
    lines = [PyStr.repeat "  " level +:+ "## Comment by "
               +:+ signatures_text n;
             PyStr.repeat "  " level +:+ "**Date:** " +:+ date;
             ""] ++ rest.
Proof.
  unfold header_and_content.
  destruct (date_text _ _ _ _) as [date|]; [|done]. rewrite bind_Ok.
  destruct (truthy (_get_attr n content)).
  - destruct (match dict_get _ "title" with Some _ => _ | None => _ end)
      as [title|]; [|done].
    rewrite bind_Ok.
    destruct (for_each ("comment" :: _) _) as [main|]; [|done].
    rewrite bind_Ok. destruct (for_each _ _) as [other|]; [|done].
    intros [= <-]. by eexists _, _.
  - intros [= <-]. by exists date, [].
Qed.

Lemma walk_head fuel n cm level md :
  _format_note_recursive html5 repr_str utcoffset fuel n cm level = Ok md →
  ∃ rest,
    md = PyStr.repeat "  " level +:+ "## Comment by " +:+ signatures_text n
           +:+ nl +:+ rest.
Proof.
  destruct fuel as [|fuel]; [done|]. rewrite walk_S.
  destruct (header_and_content _ _ _ n level) as [lines|] eqn:Hl; [|done].
  apply header_and_content_head in Hl as (date & rest & ->).
  rewrite bind_Ok. destruct (mapM _ _) as [mds|]; [|done].
  intros <-%Ok_inj. unfold block. eexists.
  cbn [app]. rewrite join_cons by done. by rewrite !string_app_assoc.
Qed.

Lemma at_depth_descends notes d p n :
  at_depth notes d p → descends (reply_index notes) p n →
  ∃ d', at_depth notes d' n.
Proof.
  intros Hp Hd. revert d Hp.
  induction Hd as [p m Hid Hm|p q m Hid Hq _ IH]; intros d Hp.
  - exists (S d). by eapply at_depth_reply.
  - apply (IH (S d)). by eapply at_depth_reply.
Qed.

Lemma reachable_at_depth notes n :
  reachable notes n → ∃ d, at_depth notes d n.
Proof.
  intros (r & Hr & Hd).
  assert (∀ t, truthy (note_id r) = true →
               t ∈ children (reply_index notes) (default "" (note_id r)) →
               at_depth notes 0 t) as Htop.
  { intros t Hid Ht. apply at_depth_top. unfold top_level.
    by rewrite Hr, Hid. }
  inversion Hd as [p m Hid Hm|p q m Hid Hq Hqn]; subst.
  - exists O. by apply Htop.
  - apply (at_depth_descends notes O q); [by apply Htop|done].
Qed.

Lemma at_depth_rendered fuel notes title out d n :
  format_all_notes html5 repr_str utcoffset fuel notes title = Ok out →
  at_depth notes d n →
  ∃ fuel' md,
    _format_note_recursive html5 repr_str utcoffset fuel' n
      (reply_index notes) d = Ok md
    ∧ occurs md out.
Proof.
  intros Hout. induction 1 as [t Ht|d p m _ IH Hid Hm].
  - rewrite format_all_notes_unfold in Hout.
    destruct (match chosen_root notes with Some _ => _ | None => _ end)
      as [main|]; [|done].
    rewrite bind_Ok in Hout.
    destruct (mapM _ _) as [mds|] eqn:Hmds; [|done].
    apply Ok_inj in Hout as <-.
    destruct (mapM_res_elem _ _ _ _ Hmds Ht) as (md & Hmd & Hin).
    exists fuel, md. split; [done|]. apply occurs_join.
    rewrite !elem_of_app. by right; right; right.
  - destruct IH as (fuel' & mdp & Hmdp & Hocc).
    destruct fuel' as [|fuel']; [done|]. rewrite walk_S in Hmdp.
    destruct (header_and_content _ _ _ p d) as [lines|]; [|done].
    rewrite bind_Ok, Hid in Hmdp.
    destruct (mapM _ _) as [mds|] eqn:Hmds; [|done].
    apply Ok_inj in Hmdp as <-.
    destruct (mapM_res_elem _ _ _ _ Hmds Hm) as (md & Hmd & Hin).
    exists fuel', md. split; [done|].
    apply (occurs_trans _ (block d lines (replies_block d mds))); [|done].
    apply occurs_join. rewrite !elem_of_app. right; left.
    destruct mds as [|md0 mds]; [by apply elem_of_nil in Hin|].
    unfold replies_block. rewrite elem_of_app. by right.
Qed.

(** X7.  Every note that is reachable from the main submission along the
    index is in a document that [format_all_notes] returns: it is met at
    some depth d (0 for a reply to the main submission, one more for
    each reply below), and its block, which starts with its header line
    indented by 2·d spaces, is a part of the document. *)
Theorem format_all_notes_renders_reachable (fuel : nat)
    (notes : list Note) (submission_title out : string) (n : Note) :
  format_all_notes html5 repr_str utcoffset fuel notes submission_title
  = Ok out →
  reachable notes n →
  ∃ d fuel' md rest,
    at_depth notes d n
    ∧ _format_note_recursive html5 repr_str utcoffset fuel' n
        (reply_index notes) d = Ok md
    ∧ occurs md out
    ∧ md = PyStr.repeat "  " d +:+ "## Comment by " +:+ signatures_text n
             +:+ nl +:+ rest.
Proof.
  intros Hout [d Hd]%reachable_at_depth.
  destruct (at_depth_rendered _ _ _ _ _ _ Hout Hd) as (fuel' & md & Hmd & Ho).
  destruct (walk_head _ _ _ _ _ Hmd) as [rest Hrest].
  by exists d, fuel', md, rest.
Qed.

End reached.

Ltac eval_children :=
  rewrite children_reply_index;
  match goal with
  | |- _ ∈ ?l => let l' := eval vm_compute in l in change l with l'
  end.

Lemma format_all_notes_renders_reachable_witness :
  ∃ out d fuel' md rest,
    format_all_notes Html.html5_xml repr_simple Datetime.utc 2
      Sample.thread "T" = Ok out
    ∧ at_depth Sample.thread d
        (Sample.G1 (Some ["Authors"])
           (Some [("comment", Sample.wrapped "G1 text")]))
    ∧ _format_note_recursive Html.html5_xml repr_simple Datetime.utc
        fuel' (Sample.G1 (Some ["Authors"])
                 (Some [("comment", Sample.wrapped "G1 text")]))
        (reply_index Sample.thread) d = Ok md
    ∧ occurs md out
    ∧ md = PyStr.repeat "  " d +:+ "## Comment by Authors" +:+ nl +:+ rest.
Proof.
  assert (∃ out, format_all_notes Html.html5_xml repr_simple Datetime.utc 2
                   Sample.thread "T" = Ok out) as [out Hout].
  { eexists. vm_compute. reflexivity. }
  assert (reachable Sample.thread
            (Sample.G1 (Some ["Authors"])
               (Some [("comment", Sample.wrapped "G1 text")]))) as Hr.
  { exists (Sample.S_ (Some ["Authors"])
              (Some [("title", Sample.wrapped "Paper")])).
    split; [reflexivity|].
    apply (descends_step _ _
             (Sample.C1 (Some ["Reviewer 1"])
                (Some [("comment", Sample.wrapped "C1 text")])));
      [done|eval_children; left|].
    apply descends_child; [done|]. eval_children. left. }
  destruct (format_all_notes_renders_reachable _ _ _ _ _ _ _ _ Hout Hr)
    as (d & fuel' & md & rest & Hd & Hmd & Hocc & Hhead).
  exists out, d, fuel', md, rest.
  exact (conj Hout (conj Hd (conj Hmd (conj Hocc Hhead)))).
Defined.

(** ** The text of a field *)

Lemma split_nonempty c s : PyStr.split c s ≠ [].
Proof.
  destruct s as [|a t]; [done|]. simpl.
  destruct (Ascii.eqb a c); [done|]. by destruct (PyStr.split c t).
Qed.

(** [c.join(s.split(c)) == s] *)
Lemma join_split c s : PyStr.join (String c "") (PyStr.split c s) = s.
Proof.
  induction s as [|a t IH]; [done|]. cbn [PyStr.split].
  pose proof (split_nonempty c t) as Hne.
  destruct (Ascii.eqb_spec a c) as [->|_].
  - rewrite join_cons by done. by rewrite IH.
  - destruct (PyStr.split c t) as [|w ws]; [done|].
    destruct ws as [|w' ws]; simpl in *; by rewrite <- IH.
Qed.

Lemma join_app sep (a b : list string) :
  a ≠ [] → b ≠ [] →
  PyStr.join sep (a ++ b) = PyStr.join sep a +:+ sep +:+ PyStr.join sep b.
Proof.
  intros Ha Hb. induction a as [|x a IH]; [done|].
  destruct a as [|y a].
  - simpl. by destruct b.
  - change ((x :: y :: a) ++ b) with (x :: (y :: a) ++ b).
    rewrite !join_cons by done. rewrite IH by done.
    by rewrite !string_app_assoc.
Qed.

Lemma occurs_join_part sep (pre mid post : list string) :
  mid ≠ [] → occurs (PyStr.join sep mid) (PyStr.join sep (pre ++ mid ++ post)).
Proof.
  intros Hmid.
  assert (occurs (PyStr.join sep mid) (PyStr.join sep (mid ++ post))) as H.
  { destruct post as [|p post].
    - rewrite app_nil_r. apply occurs_refl.
    - rewrite join_app by done. exists "", (sep +:+ PyStr.join sep (p :: post)).
      done. }
  destruct pre as [|p pre]; [done|].
  rewrite join_app by (done || by destruct mid).
  eapply occurs_trans; [exact H|].
  exists (PyStr.join sep (p :: pre) +:+ sep), "".
  by rewrite string_app_nil_r, !string_app_assoc.
Qed.

Lemma map_append_nil (l : list string) : map (String.append "") l = l.
Proof. induction l as [|x l IH]; [done|]. simpl. by rewrite IH. Qed.

Lemma mapM_res_chunk {A B} (f : A → res (list B)) l chunks x :
  mapM f l = Ok chunks → x ∈ l →
  ∃ c pre post, f x = Ok c ∧ concat chunks = pre ++ c ++ post.
Proof.
  revert chunks. induction l as [|a l IH]; intros chunks Hk Hx.
  { by apply elem_of_nil in Hx. }
  rewrite mapM_cons in Hk. destruct (f a) as [b|] eqn:Ha; [|done].
  rewrite bind_Ok in Hk. destruct (mapM f l) as [k'|]; [|done].
  injection Hk as <-. apply elem_of_cons in Hx as [->|Hx].
  - exists b, [], (concat k'). done.
  - destruct (IH k' eq_refl Hx) as (c & pre & post & Hc & Hcat).
    exists c, (b ++ pre), post. split; [done|].
    simpl. by rewrite Hcat, <- (assoc_L (++)).
Qed.

Section field_text.
Variable html5 : string → option string.
Variable repr_str : string → string.
Variable utcoffset : Z → Z.

Lemma header_and_content_field n level d f field s lines :
  content n = Some d →
  f ∈ ["comment"; "review"; "summary"; "response"] →
  dict_get d f = Some field →
  _extract_value html5 repr_str field = Ok (PStr s) → s ≠ "" →
  header_and_content html5 repr_str utcoffset n level = Ok lines →
  ∃ pre post,
    lines = pre
      ++ ([PyStr.repeat "  " level +:+ "**" +:+ PyStr.title f +:+ ":**"; ""]
          ++ map (String.append (PyStr.repeat "  " level))
               (PyStr.split PyStr.LF s)
          ++ [""])
      ++ post.
Proof.
  intros Hc Hf Hget Hs Hne. unfold header_and_content, _get_attr.
  destruct (date_text _ _ _ _) as [date|]; [|done]. rewrite bind_Ok.
  rewrite Hc. cbn [default from_option id].
  assert (truthy (Some d) = true) as ->.
  { destruct d; [done|reflexivity]. }
  destruct (match dict_get d "title" with Some _ => _ | None => _ end)
    as [title|]; [|done].
  rewrite bind_Ok.
  destruct (for_each ("comment" :: _) _) as [main|] eqn:Hm; [|done].
  rewrite bind_Ok.
  destruct (for_each ("rating" :: _) _) as [other|]; [|done].
  rewrite bind_Ok. intros <-%Ok_inj. unfold for_each in Hm.
  destruct (mapM _ _) as [chunks|] eqn:Hch in Hm; [|done].
  apply Ok_inj in Hm as <-.
  apply (mapM_res_chunk _ _ _ f) in Hch as (c & pre & post & Hc' & ->);
    [|done].
  rewrite Hget, Hs, bind_Ok in Hc'.
  assert (truthy (PStr s) = true) as Ht by by apply truthy_string_iff.
  rewrite Ht in Hc'. apply Ok_inj in Hc' as <-.
  match goal with
  | |- ∃ p q, ?A ++ ?T ++ _ ++ _ = _ =>
      exists (A ++ T ++ pre), (post ++ other)
  end.
  by rewrite <- !app_assoc.
Qed.

(** X8.  The text that a "comment", "review", "summary" or "response"
    field extracts to is in the render of its note line by line, each
    line behind the indentation of the depth, below the label of the
    field and a blank line; at depth 0 the text is there as it is, for
    joining the lines of a text with newlines gives the text back. *)
Theorem format_note_field_text (fuel : nat) (note : Note)
    (d : list (string * PyVal))
    (f : string) (field : PyVal) (s md : string)
    (include_replies : bool) (level : nat) :
  content note = Some d →
  f ∈ ["comment"; "review"; "summary"; "response"] →
  dict_get d f = Some field →
  _extract_value html5 repr_str field = Ok (PStr s) → s ≠ "" →
  format_note html5 repr_str utcoffset fuel note include_replies level
  = Ok md →
  occurs
    (PyStr.join nl
       ([PyStr.repeat "  " level +:+ "**" +:+ PyStr.title f +:+ ":**"; ""]
        ++ map (String.append (PyStr.repeat "  " level))
             (PyStr.split PyStr.LF s)
        ++ [""]))
    md
  ∧ (level = O →
     occurs ("**" +:+ PyStr.title f +:+ ":**" +:+ nl +:+ nl +:+ s +:+ nl) md).
Proof.
  intros Hc Hf Hget Hs Hne.
  destruct fuel as [|fuel]; [done|]. rewrite format_note_unfold.
  destruct (header_and_content _ _ _ note level) as [lines|] eqn:Hl; [|done].
  rewrite bind_Ok. destruct (if _ && _ then _ else _) as [rl|]; [|done].
  intros [= <-].
  destruct (header_and_content_field _ _ _ _ _ _ _ Hc Hf Hget Hs Hne Hl)
    as (pre & post & ->).
  assert (occurs
    (PyStr.join nl
       ([PyStr.repeat "  " level +:+ "**" +:+ PyStr.title f +:+ ":**"; ""]
        ++ map (String.append (PyStr.repeat "  " level))
             (PyStr.split PyStr.LF s)
        ++ [""]))
    (block level
       (pre
        ++ ([PyStr.repeat "  " level +:+ "**" +:+ PyStr.title f +:+ ":**"; ""]
            ++ map (String.append (PyStr.repeat "  " level))
                 (PyStr.split PyStr.LF s)
            ++ [""])
        ++ post) rl)) as Hocc.
  { unfold block. rewrite <- !(assoc_L (++) pre).
    rewrite <- (assoc_L (++) _ post). by apply occurs_join_part. }
  split; [done|]. intros ->.
  eapply occurs_trans; [|exact Hocc].
  change (PyStr.repeat "  " 0) with "". rewrite map_append_nil.
  change ("" +:+ ?x) with x.
  change ([?a; ""] ++ ?l) with (a :: "" :: l).
  rewrite !join_cons; [|by destruct (PyStr.split _ _)..].
  rewrite join_app by (done || apply split_nonempty).
  rewrite join_split. change (PyStr.join nl [""]) with "".
  rewrite !string_app_assoc.
  exists "", "". by rewrite !string_app_nil_r.
Qed.

End field_text.

Lemma format_note_field_text_witness :
  ∃ md,
    format_note Html.html5_xml repr_simple Datetime.utc 1
      Sample.reviewer_abc true 0 = Ok md
    ∧ occurs ("**Comment:**" +:+ nl +:+ nl +:+ "Test comment" +:+ nl) md.
Proof.
  eexists. split; [vm_compute; reflexivity|].
  eapply (format_note_field_text Html.html5_xml repr_simple Datetime.utc
            1 Sample.reviewer_abc _ "comment"
            (Sample.wrapped "Test comment")
            "Test comment" _ true 0);
    [reflexivity|by_decide|reflexivity|vm_compute; reflexivity|done
    |vm_compute; reflexivity|reflexivity].
Defined.

(** ** The file name *)

Lemma mem_app c a b :
  PyStr.mem c (a +:+ b) = PyStr.mem c a || PyStr.mem c b.
Proof.
  induction a as [|x a IH]; [done|].
  change (PyStr.mem c (String x (a +:+ b))
          = (Ascii.eqb x c || PyStr.mem c a) || PyStr.mem c b).
  cbn [PyStr.mem]. by rewrite IH, orb_assoc.
Qed.

Lemma mem_replace_same a b s :
  a ≠ b → PyStr.mem a (PyStr.replace a b s) = false.
Proof.
  intros Hab. induction s as [|x s IH]; [done|]. cbn [PyStr.replace PyStr.mem].
  rewrite IH, orb_false_r. destruct (Ascii.eqb_spec x a) as [->|Hx].
  - by apply Ascii.eqb_neq.
  - by apply Ascii.eqb_neq.
Qed.

Lemma mem_replace_other c a b s :
  c ≠ b → PyStr.mem c s = false → PyStr.mem c (PyStr.replace a b s) = false.
Proof.
  intros Hcb. induction s as [|x s IH]; [done|]. cbn [PyStr.replace PyStr.mem].
  intros [Hx Hs]%orb_false_elim. rewrite IH, orb_false_r by done.
  destruct (Ascii.eqb x a); [|done]. by apply Ascii.eqb_neq.
Qed.

(** a character that is neither a digit nor the sign is in no [str(z)] *)
Lemma mem_of_Z c z :
  PyStr.mem c "0123456789-" = false → PyStr.mem c (PyStr.of_Z z) = false.
Proof.
  intros H. cbn [PyStr.mem] in H.
  repeat (apply orb_false_elim in H as [? H]).
  assert (∀ u, PyStr.mem c (NilEmpty.string_of_uint u) = false) as Hu.
  { induction u; simpl; rewrite ?IHu, ?orb_false_r; done. }
  unfold PyStr.of_Z, NilZero.string_of_int, NilZero.string_of_uint.
  destruct (Z.to_int z) as [u|u]; destruct u; simpl;
    rewrite ?Hu, ?orb_false_r;
    repeat (apply orb_false_intro; [assumption|]); done.
Qed.

Lemma mem_pad c w z :
  PyStr.mem c "0123456789-" = false → PyStr.mem c (PyStr.pad w z) = false.
Proof.
  intros H. unfold PyStr.pad. rewrite mem_app, mem_of_Z, orb_false_r by done.
  cbn [PyStr.mem] in H. apply orb_false_elim in H as [H0 _].
  induction (w - _)%nat as [|k IH]; [done|].
  change (PyStr.repeat "0" (S k)) with (String "0" (PyStr.repeat "0" k)).
  cbn [PyStr.mem]. by rewrite H0, IH.
Qed.

Section file_name.
Variable html5 : string → option string.
Variable repr_str : string → string.
Variable utcoffset : Z → Z.

Lemma mem_date_text c n d :
  PyStr.mem c "0123456789-unkow" = false →
  date_text utcoffset n "%Y%m%d" "unknown" = Ok d → PyStr.mem c d = false.
Proof.
  intros Hc. unfold date_text. destruct (truthy _).
  - destruct (Datetime.fromtimestamp _ _) as [dt|]; [|done].
    intros <-%Ok_inj. rewrite strftime_compact.
    assert (PyStr.mem c "0123456789-" = false) as Hd.
    { cbn [PyStr.mem] in *. repeat (apply orb_false_elim in Hc as [? Hc]).
      by repeat (apply orb_false_intro; [done|]). }
    by rewrite !mem_app, mem_of_Z, !mem_pad by done.
  - intros <-%Ok_inj. cbn [PyStr.mem] in *.
    repeat (apply orb_false_elim in Hc as [? Hc]).
    by repeat (apply orb_false_intro; [done|]).
Qed.

(** X9.  A file name that [format_note_to_file] returns holds neither a
    slash nor a space, whatever the signatures are, and ends in ".md". *)
Theorem format_note_to_file_name (fuel : nat) (note : Note)
    (filename md name : string) :
  format_note_to_file html5 repr_str utcoffset fuel note filename
  = Ok (md, name) →
  PyStr.mem "/" name = false ∧ PyStr.mem " " name = false
  ∧ ∃ stem, name = stem +:+ ".md".
Proof.
  unfold format_note_to_file.
  destruct (date_text _ _ _ _) as [d|] eqn:Hd; [|done]. rewrite bind_Ok.
  destruct (format_note _ _ _ fuel note true 0) as [md'|]; [|done].
  intros [= <- <-]%Ok_inj. split_and!.
  - rewrite !mem_app, (mem_date_text "/" _ _ eq_refl Hd).
    by rewrite mem_replace_other by (done || by apply mem_replace_same).
  - rewrite !mem_app, (mem_date_text " " _ _ eq_refl Hd).
    by rewrite mem_replace_same.
  - eexists. by rewrite <- !string_app_assoc.
Qed.

End file_name.

Lemma format_note_to_file_name_witness :
  PyStr.mem "/" "20210101_Reviewer_ABC.md" = false
  ∧ PyStr.mem " " "20210101_Reviewer_ABC.md" = false
  ∧ ∃ stem, "20210101_Reviewer_ABC.md" = stem +:+ ".md".
Proof.
  apply (format_note_to_file_name Html.html5_xml repr_simple Datetime.utc
           1 Sample.reviewer_abc "review.md"
           (PyStr.join nl
              ["## Comment by Reviewer ABC"; "**Date:** 2021-01-01 00:00:00";
               ""; "**Comment:**"; ""; "Test comment"; ""; "---"; ""])).
  vm_compute. reflexivity.
Defined.

(** ** Reply summaries that mirror the index *)

Section mirror.
Variable html5 : string → option string.
Variable repr_str : string → string.
Variable utcoffset : Z → Z.

(** with a budget that covers the height of the summaries, the budget
    does not show in what [format_note] gives *)
Lemma format_note_enough fuel fuel' n include_replies level :
  (height n ≤ fuel)%nat → (height n ≤ fuel')%nat →
  format_note html5 repr_str utcoffset fuel n include_replies level
  = format_note html5 repr_str utcoffset fuel' n include_replies level.
Proof.
  revert fuel fuel' include_replies level.
  induction n as [n IH] using Note_ind_replies.
  intros fuel fuel' include_replies level Hf Hf'.
  destruct fuel as [|fuel]; [rewrite (height_unfold n) in Hf; lia|].
  destruct fuel' as [|fuel']; [rewrite (height_unfold n) in Hf'; lia|].
  destruct include_replies; [|by rewrite !format_note_no_replies].
  rewrite !format_note_replies_of.
  rewrite (mapM_res_ext _
    (λ reply, format_note html5 repr_str utcoffset fuel' reply true
                (S level))); [done|].
  intros r Hr. rewrite Forall_forall in IH.
  pose proof (height_reply n r Hr). apply IH; [done|lia..].
Qed.

Lemma walk_mirrors fuel cm n level :
  mirrors cm n →
  _format_note_recursive html5 repr_str utcoffset fuel n cm level
  = format_note html5 repr_str utcoffset fuel n true level.
Proof.
  revert fuel level.
  induction n as [n IH] using Note_ind_replies.
  intros fuel level Hm. inversion Hm as [n' Hrep Hall]; subst n'.
  destruct fuel as [|fuel]; [done|].
  rewrite walk_S, format_note_replies_of, <- Hrep.
  destruct (header_and_content _ _ _ n level) as [lines|]; [|done].
  rewrite !bind_Ok.
  rewrite (mapM_res_ext _
    (λ reply, format_note html5 repr_str utcoffset fuel reply true
                (S level)));
    [done|].
  intros r Hr. rewrite Forall_forall in IH, Hall.
  apply IH; [done|by apply Hall].
Qed.

(** X10.  When the reply summaries of a note mirror the index, at the
    note and at every note below, the walk of the index gives what
    [format_note] gives from the summaries, at every depth: with the
    same recursion budget, whatever it is, and with any two budgets as
    soon as each covers the height of the summaries. *)
Theorem walk_mirrors_format_note (children_map : gmap string (list Note))
    (note : Note) (fuel fuel' level : nat) :
  mirrors children_map note →
  _format_note_recursive html5 repr_str utcoffset fuel note children_map level
  = format_note html5 repr_str utcoffset fuel note true level
  ∧ ((height note ≤ fuel)%nat → (height note ≤ fuel')%nat →
     _format_note_recursive html5 repr_str utcoffset fuel note children_map
       level
     = format_note html5 repr_str utcoffset fuel' note true level).
Proof.
  intros Hm. split; [by apply walk_mirrors|].
  intros Hf Hf'. rewrite walk_mirrors by done. by apply format_note_enough.
Qed.

End mirror.

Lemma walk_mirrors_format_note_witness :
  _format_note_recursive Html.html5_xml repr_simple Datetime.utc 2
    Sample.review (reply_index [Sample.review; Sample.answer]) 0
  = format_note Html.html5_xml repr_simple Datetime.utc 1000 Sample.review
      true 0.
Proof.
  assert (children (reply_index [Sample.review; Sample.answer]) "R"
          = [Sample.answer]) as Hr.
  { rewrite children_reply_index. reflexivity. }
  assert (children (reply_index [Sample.review; Sample.answer]) "A"
          = []) as Ha.
  { rewrite children_reply_index. reflexivity. }
  apply walk_mirrors_format_note; [|simpl; lia..].
  apply mirrors_intro.
  - change (if truthy (note_id Sample.review)
            then children ?cm (default "" (note_id Sample.review))
            else [])
      with (children cm "R").
    by rewrite Hr.
  - constructor; [|constructor]. apply mirrors_intro; [|constructor].
    change (if truthy (note_id Sample.answer)
            then children ?cm (default "" (note_id Sample.answer))
            else [])
      with (children cm "A").
    by rewrite Ha.
Defined.

(** ** Replies and fields in the render of a note *)

Lemma mapM_res_Forall2 {A B} (f : A → res B) l k :
  mapM f l = Ok k → Forall2 (λ x y, f x = Ok y) l k.
Proof.
  revert k. induction l as [|a l IH]; intros k.
  - rewrite mapM_nil. intros <-%Ok_inj. constructor.
  - rewrite mapM_cons. destruct (f a) as [b|] eqn:Ha; [|done].
    rewrite bind_Ok. destruct (mapM f l) as [k'|]; [|done].
    intros <-%Ok_inj. constructor; [done|]. by apply IH.
Qed.

Section parts_of_a_render.
Variable html5 : string → option string.
Variable repr_str : string → string.
Variable utcoffset : Z → Z.

(** X11.  A render that [format_note] returns with the reply summary
    holds the render of each note of the summary, made one level deeper
    and one call further into the recursion budget, with its own
    summary. *)
Theorem format_note_renders_replies (fuel : nat) (note reply : Note)
    (level : nat) (md : string) :
  format_note html5 repr_str utcoffset fuel note true level = Ok md →
  reply ∈ replies_of note →
  ∃ reply_md,
    format_note html5 repr_str utcoffset (Nat.pred fuel) reply true (S level)
    = Ok reply_md
    ∧ occurs reply_md md.
Proof.
  destruct fuel as [|fuel]; [done|]. cbn [Nat.pred].
  rewrite format_note_replies_of. intros Hmd Hr.
  destruct (header_and_content _ _ _ note level) as [lines|]; [|done].
  rewrite bind_Ok in Hmd.
  destruct (mapM _ _) as [mds|] eqn:Hmds; [|done].
  apply Ok_inj in Hmd as <-.
  destruct (mapM_res_elem _ _ _ _ Hmds Hr) as (reply_md & Hmd & Hin).
  exists reply_md. split; [done|]. apply occurs_join.
  rewrite !elem_of_app. right; left.
  destruct mds as [|md0 mds]; [by apply elem_of_nil in Hin|].
  unfold replies_block. rewrite elem_of_app. by right.
Qed.

Lemma header_and_content_other n level d f field v lines :
  content n = Some d →
  f ∈ ["rating"; "confidence"; "strengths"; "weaknesses"; "questions"] →
  dict_get d f = Some field →
  _extract_value html5 repr_str field = Ok v →
  truthy v = true →
  header_and_content html5 repr_str utcoffset n level = Ok lines →
  ∃ text pre post,
    py_str repr_str v = Ok text
    ∧ lines = pre
        ++ [PyStr.repeat "  " level +:+ "**"
              +:+ PyStr.title (PyStr.replace "_" " " f) +:+ ":** "
              +:+ text; ""]
        ++ post.
Proof.
  intros Hc Hf Hget Hfield Hv. unfold header_and_content, _get_attr.
  destruct (date_text _ _ _ _) as [date|]; [|done]. rewrite bind_Ok.
  rewrite Hc. cbn [default from_option id].
  assert (truthy (Some d) = true) as ->.
  { destruct d; [done|reflexivity]. }
  destruct (match dict_get d "title" with Some _ => _ | None => _ end)
    as [title|]; [|done].
  rewrite bind_Ok.
  destruct (for_each ("comment" :: _) _) as [main|]; [|done].
  rewrite bind_Ok.
  destruct (for_each ("rating" :: _) _) as [other|] eqn:Hm; [|done].
  rewrite bind_Ok. intros <-%Ok_inj. unfold for_each in Hm.
  destruct (mapM _ _) as [chunks|] eqn:Hch in Hm; [|done].
  apply Ok_inj in Hm as <-.
  apply (mapM_res_chunk _ _ _ f) in Hch as (c & pre & post & Hc' & ->);
    [|done].
  rewrite Hget, Hfield, bind_Ok, Hv in Hc'.
  destruct (py_str repr_str v) as [text|]; [|done].
  rewrite bind_Ok in Hc'. apply Ok_inj in Hc' as <-.
  exists text.
  match goal with
  | |- ∃ p q, _ ∧ ?A ++ ?T ++ ?M ++ _ = _ =>
      exists (A ++ T ++ M ++ pre), post
  end.
  split; [done|]. by rewrite <- !app_assoc.
Qed.

(** X12.  A "rating", "confidence", "strengths", "weaknesses" or
    "questions" field whose extracted value is truthy, a string or not,
    is one line of a render that returns: the indentation, the label in
    bold and the value as [str] prints it. *)
Theorem format_note_other_field (fuel : nat) (note : Note)
    (d : list (string * PyVal))
    (f : string) (field v : PyVal) (md : string)
    (include_replies : bool) (level : nat) :
  content note = Some d →
  f ∈ ["rating"; "confidence"; "strengths"; "weaknesses"; "questions"] →
  dict_get d f = Some field →
  _extract_value html5 repr_str field = Ok v →
  truthy v = true →
  format_note html5 repr_str utcoffset fuel note include_replies level
  = Ok md →
  ∃ text,
    py_str repr_str v = Ok text
    ∧ occurs
        (PyStr.repeat "  " level +:+ "**"
           +:+ PyStr.title (PyStr.replace "_" " " f) +:+ ":** "
           +:+ text +:+ nl)
        md.
Proof.
  intros Hc Hf Hget Hfield Hv.
  destruct fuel as [|fuel]; [done|]. rewrite format_note_unfold.
  destruct (header_and_content _ _ _ note level) as [lines|] eqn:Hl; [|done].
  rewrite bind_Ok. destruct (if _ && _ then _ else _) as [rl|]; [|done].
  intros <-%Ok_inj.
  destruct (header_and_content_other _ _ _ _ _ _ _ Hc Hf Hget Hfield Hv Hl)
    as (text & pre & post & Htext & ->).
  exists text. split; [done|].
  set (line := PyStr.repeat "  " level +:+ "**"
                 +:+ PyStr.title (PyStr.replace "_" " " f) +:+ ":** "
                 +:+ text).
  apply (occurs_trans _ (PyStr.join nl [line; ""])).
  - exists "", "". unfold line. cbn [PyStr.join].
    by rewrite !string_app_assoc.
  - unfold block. rewrite <- !app_assoc. by apply occurs_join_part.
Qed.

End parts_of_a_render.

(** ** The order of the replies in a document *)

Lemma join_two sep (l1 l2 l3 : list string) x y :
  ∃ a b c,
    PyStr.join sep (l1 ++ x :: l2 ++ y :: l3) = a +:+ x +:+ b +:+ y +:+ c.
Proof.
  destruct (occurs_join sep y (l2 ++ y :: l3)) as (b' & c & Hy).
  { rewrite elem_of_app. right. left. }
  assert (∃ a, PyStr.join sep (l1 ++ [x]) = a +:+ x) as [a Hx].
  { induction l1 as [|z l1 [a IH]]; [by exists ""|].
    exists (z +:+ sep +:+ a).
    change ((z :: l1) ++ [x]) with (z :: l1 ++ [x]).
    rewrite join_cons by by destruct l1.
    by rewrite IH, !string_app_assoc. }
  exists a, (sep +:+ b'), c.
  change (x :: l2 ++ y :: l3) with ([x] ++ l2 ++ y :: l3).
  rewrite (app_assoc l1).
  rewrite join_app; [|by destruct l1|by destruct l2].
  by rewrite Hx, Hy, !string_app_assoc.
Qed.

Lemma mapM_res_two {A} (f : A → res string) l1 a l2 b l3 k sep
    (pre : list string) :
  mapM f (l1 ++ a :: l2 ++ b :: l3) = Ok k →
  ∃ x y p q r,
    f a = Ok x ∧ f b = Ok y
    ∧ PyStr.join sep (pre ++ k) = p +:+ x +:+ q +:+ y +:+ r.
Proof.
  intros Hk. apply mapM_res_Forall2 in Hk.
  apply Forall2_app_inv_l in Hk as (k1 & k' & _ & Hk & ->).
  apply Forall2_cons_inv_l in Hk as (x & k'' & Hx & Hk & ->).
  apply Forall2_app_inv_l in Hk as (k2 & k' & _ & Hk & ->).
  apply Forall2_cons_inv_l in Hk as (y & k3 & Hy & _ & ->).
  destruct (join_two sep (pre ++ k1) k2 k3 x y) as (p & q & r & Hj).
  exists x, y, p, q, r. by rewrite app_assoc.
Qed.

Section reply_order.
Variable html5 : string → option string.
Variable repr_str : string → string.
Variable utcoffset : Z → Z.

Lemma top_level_sorted notes :
  StronglySorted (key_le cdate_key) (top_level notes).
Proof.
  unfold top_level. destruct (chosen_root notes); [|constructor].
  destruct (truthy _); [|constructor].
  rewrite children_reply_index. apply sorted_StronglySorted.
Qed.

(** X13.  In a document that [format_all_notes] returns, of two replies
    to the main submission the one with the lesser sort key (the
    timestamp, 0 when missing) has its block first; and in a block that
    the walk returns for a note, the same holds of two replies to that
    note. *)
Theorem replies_in_timestamp_order (fuel : nat) (notes : list Note) :
  (∀ submission_title out t1 t2,
     format_all_notes html5 repr_str utcoffset fuel notes submission_title
     = Ok out →
     t1 ∈ top_level notes → t2 ∈ top_level notes →
     cdate_key t1 < cdate_key t2 →
     ∃ md1 md2 a b c,
       _format_note_recursive html5 repr_str utcoffset fuel t1
         (reply_index notes) 0 = Ok md1
       ∧ _format_note_recursive html5 repr_str utcoffset fuel t2
           (reply_index notes) 0 = Ok md2
       ∧ out = a +:+ md1 +:+ b +:+ md2 +:+ c)
  ∧ (∀ note level md r1 r2,
       _format_note_recursive html5 repr_str utcoffset (S fuel) note
         (reply_index notes) level = Ok md →
       truthy (note_id note) = true →
       r1 ∈ children (reply_index notes) (default "" (note_id note)) →
       r2 ∈ children (reply_index notes) (default "" (note_id note)) →
       cdate_key r1 < cdate_key r2 →
       ∃ md1 md2 a b c,
         _format_note_recursive html5 repr_str utcoffset fuel r1
           (reply_index notes) (S level) = Ok md1
         ∧ _format_note_recursive html5 repr_str utcoffset fuel r2
             (reply_index notes) (S level) = Ok md2
         ∧ md = a +:+ md1 +:+ b +:+ md2 +:+ c).
Proof.
  split.
  - intros title out t1 t2 Hout Ht1 Ht2 Hlt.
    destruct (sorted_before cdate_key _ _ _ (top_level_sorted notes)
                Ht1 Ht2 Hlt) as (l1 & l2 & l3 & Hl).
    rewrite format_all_notes_unfold, Hl in Hout.
    destruct (match chosen_root notes with Some _ => _ | None => _ end)
      as [main|]; [|done].
    rewrite bind_Ok in Hout.
    destruct (mapM _ _) as [mds|] eqn:Hmds; [|done].
    apply Ok_inj in Hout as <-.
    destruct (mapM_res_two _ _ _ _ _ _ _ nl
                (count_header title (length notes) ++ main
                 ++ ["# Comments and Reviews"; ""]) Hmds)
      as (x & y & p & q & r & Hx & Hy & Hj).
    exists x, y, p, q, r. split_and!; [done..|].
    by rewrite <- Hj, <- !app_assoc.
  - intros note level md r1 r2 Hmd Hid Hr1 Hr2 Hlt.
    assert (StronglySorted (key_le cdate_key)
              (children (reply_index notes) (default "" (note_id note))))
      as Hs.
    { rewrite children_reply_index. apply sorted_StronglySorted. }
    destruct (sorted_before cdate_key _ _ _ Hs Hr1 Hr2 Hlt)
      as (l1 & l2 & l3 & Hl).
    rewrite walk_S, Hid, Hl in Hmd.
    destruct (header_and_content _ _ _ note level) as [lines|]; [|done].
    rewrite bind_Ok in Hmd.
    destruct (mapM _ _) as [mds|] eqn:Hmds; [|done].
    apply Ok_inj in Hmd as <-.
    destruct (mapM_res_two _ _ _ _ _ _ _ nl
                (lines ++ [PyStr.repeat "  " level +:+ "### Replies:"; ""])
                Hmds)
      as (x & y & p & q & r & Hx & Hy & Hj).
    apply mapM_res_length in Hmds.
    destruct mds as [|md0 mds].
    { rewrite length_app in Hmds. simpl in Hmds. lia. }
    destruct (occurs_join_part nl [] 
                ((lines ++ [PyStr.repeat "  " level +:+ "### Replies:"; ""])
                 ++ md0 :: mds)
                [PyStr.repeat "  " level +:+ "---"; ""])
      as (u & v & Hu); [by destruct lines|].
    exists x, y, (u +:+ p), q, (r +:+ v). split_and!; [done..|].
    unfold block, replies_block. cbn [app] in Hu.
    rewrite <- !app_assoc in Hu. cbn [app] in Hu |- *.
    rewrite Hu. rewrite <- !app_assoc in Hj. cbn [app] in Hj.
    rewrite Hj. by rewrite !string_app_assoc.
Qed.

End reply_order.

Lemma format_note_renders_replies_witness :
  ∃ md reply_md,
    format_note Html.html5_xml repr_simple Datetime.utc 2 Sample.review
      true 0 = Ok md
    ∧ format_note Html.html5_xml repr_simple Datetime.utc 1 Sample.answer
        true 1 = Ok reply_md
    ∧ occurs reply_md md.
Proof.
  assert (∃ md, format_note Html.html5_xml repr_simple Datetime.utc 2
                  Sample.review true 0 = Ok md) as [md Hmd].
  { eexists. vm_compute. reflexivity. }
  destruct (format_note_renders_replies _ _ _ _ _ Sample.answer _ _ Hmd)
    as (reply_md & Hr & Hocc); [left|].
  exists md, reply_md. exact (conj Hmd (conj Hr Hocc)).
Defined.

Lemma format_note_other_field_witness :
  ∃ md,
    format_note Html.html5_xml repr_simple Datetime.utc 2 Sample.review
      true 0 = Ok md
    ∧ occurs ("**Rating:** 8" +:+ nl) md.
Proof.
  assert (∃ md, format_note Html.html5_xml repr_simple Datetime.utc 2
                  Sample.review true 0 = Ok md) as [md Hmd].
  { eexists. vm_compute. reflexivity. }
  exists md. split; [exact Hmd|].
  destruct (format_note_other_field Html.html5_xml repr_simple Datetime.utc
              2 Sample.review _ "rating" (PInt 8) (PStr "8") md true 0
              eq_refl ltac:(by_decide) eq_refl eq_refl eq_refl Hmd)
    as (text & Htext & Hocc).
  apply Ok_inj in Htext as <-. exact Hocc.
Defined.

Lemma replies_in_timestamp_order_witness :
  ∃ out md1 md2 a b c,
    format_all_notes Html.html5_xml repr_simple Datetime.utc 2
      Sample.thread "T" = Ok out
    ∧ _format_note_recursive Html.html5_xml repr_simple Datetime.utc 2
        (Sample.C1 (Some ["Reviewer 1"])
           (Some [("comment", Sample.wrapped "C1 text")]))
        (reply_index Sample.thread) 0 = Ok md1
    ∧ _format_note_recursive Html.html5_xml repr_simple Datetime.utc 2
        (Sample.C2 (Some ["Reviewer 2"])
           (Some [("comment", Sample.wrapped "C2 text")]))
        (reply_index Sample.thread) 0 = Ok md2
    ∧ out = a +:+ md1 +:+ b +:+ md2 +:+ c.
Proof.
  assert (∃ out, format_all_notes Html.html5_xml repr_simple Datetime.utc 2
                   Sample.thread "T" = Ok out) as [out Hout].
  { eexists. vm_compute. reflexivity. }
  assert (∀ t, t ∈ children (reply_index Sample.thread) "S" →
               t ∈ top_level Sample.thread) as Htop.
  { intros t Ht. exact Ht. }
  destruct (replies_in_timestamp_order Html.html5_xml repr_simple
              Datetime.utc 2 Sample.thread) as [H _].
  destruct (H "T" out
              (Sample.C1 (Some ["Reviewer 1"])
                 (Some [("comment", Sample.wrapped "C1 text")]))
              (Sample.C2 (Some ["Reviewer 2"])
                 (Some [("comment", Sample.wrapped "C2 text")])) Hout)
    as (md1 & md2 & a & b & c & H1 & H2 & H3).
  - apply Htop. eval_children. left.
  - apply Htop. eval_children. right. left.
  - reflexivity.
  - exists out, md1, md2, a, b, c.
    exact (conj Hout (conj H1 (conj H2 H3))).
Defined.
